(** * PdfHighlighter: a shallow embedding of src/components/PdfHighlighter.tsx

    The component keeps its mutable state in React refs and React state
    cells and reacts to DOM, viewer and caller events.  Every handler of the
    component is embedded as a computation over one explicit state record;
    a handler either returns or throws, and the state it leaves behind
    persists in both cases, as it does for a JavaScript event handler.

    Numbers that are IEEE doubles in the browser (client rectangle
    coordinates) are idealised as rationals. *)

From Stdlib Require Import QArith Qminmax.
From stdpp Require Import base option list gmap strings.

Local Open Scope Z_scope.
Local Open Scope nat_scope.

(** ** Data model *)

(** A DOM element, identified by a handle. *)
Definition Element := nat.

(** Left/top/width/height rectangle with its page ([LTWHP] of ../types). *)
Record LTWHP := mkLTWHP {
  r_left : Q;
  r_top : Q;
  r_width : Q;
  r_height : Q;
  r_pageNumber : nat
}.

(** Scale-independent rectangle ([Scaled] of ../types). *)
Record Scaled := mkScaled {
  x1 : Q;
  y1 : Q;
  x2 : Q;
  y2 : Q;
  s_width : Q;
  s_height : Q;
  s_pageNumber : nat
}.

Record ViewportPosition := mkViewportPosition {
  vp_boundingRect : LTWHP;
  vp_rects : list LTWHP
}.

Record ScaledPosition := mkScaledPosition {
  sp_boundingRect : Scaled;
  sp_rects : list Scaled;
  sp_usePdfCoordinates : option bool
}.

Record Content := mkContent {
  c_text : option string;
  c_image : option string
}.

Record Highlight := mkHighlight {
  h_id : string;
  h_position : ScaledPosition;
  h_content : Content
}.

Record GhostHighlight := mkGhostHighlight {
  g_content : Content;
  g_position : ScaledPosition
}.

(** What a caller-supplied render function returns.  The component never
    looks inside. *)
Definition ReactElement := string.

Record ViewportHighlight := mkViewportHighlight {
  vh_id : string;
  vh_position : ViewportPosition;
  vh_content : Content
}.

(** [tip.content] is either a function of the highlight or a plain element
    ([typeof tip.content === "function"]). *)
Inductive TipContent :=
  | ContentFunction (f : ViewportHighlight → ReactElement)
  | ContentElement (e : ReactElement).

Record Tip := mkTip {
  t_highlight : ViewportHighlight;
  t_content : TipContent
}.

(** A DOM [Range]: the node that contains it and its text ([toString()]). *)
Record Range := mkRange {
  commonAncestorContainer : Element;
  range_toString : string
}.

(** A DOM [Selection]: [rangeCount] is the length of [sel_ranges] and
    [getRangeAt(0)] its head. *)
Record Selection := mkSelection {
  sel_isCollapsed : bool;
  sel_ranges : list Range
}.

(** A page found under a range ([Page] of ../lib/pdfjs-dom). *)
Record Page := mkPage {
  page_node : Element;
  page_number : nat
}.

(** The part of the host viewer (PDF.js) the component reads. *)
Record PageViewport := mkPageViewport {
  pv_width : Q;
  pv_height : Q;
  pv_scale : Q
}.

Record TextLayerBuilder := mkTextLayerBuilder {
  tl_div : Element
}.

Record PDFPageView := mkPDFPageView {
  textLayer : option TextLayerBuilder;
  viewport : PageViewport
}.

Record PDFViewer := mkPDFViewer {
  viewer_container : Element;
  viewer_pages : list PDFPageView
}.

(** [viewer.getPageView(index)]: [undefined] outside the page array. *)
Definition getPageView (v : PDFViewer) (index : Z) : option PDFPageView :=
  if (index <? 0)%Z then None else viewer_pages v !! Z.to_nat index.

(** The element handed to [root.render]: the data props of
    [<HighlightLayer/>].  Its remaining props (hideTipAndGhostHighlight,
    showTip, setTip, children) are the same closures at every render. *)
Record LayerElement := mkLayerElement {
  le_highlightsByPage : nat → list (Highlight + GhostHighlight);
  le_pageNumber : nat;
  le_scrolledToHighlightId : option string;
  le_viewer : PDFViewer
}.

(** A React root is an object with identity: a handle into the store
    [rootRendered] of the state below, which holds the element each root
    currently renders. *)
Definition Root := nat.

Record HighlightRoot := mkHighlightRoot {
  reactRoot : Root;
  container : Element
}.

(** The continuations handed to [onSelectionFinished], as data: the
    component's own [hideTipAndGhostHighlight], the arrow function of
    [afterSelection] (closed over its content and scaled position), and
    the arrow function of the area selection. *)
Inductive Continuation :=
  | HideTipAndGhostHighlight
  | TransformSelection (content : Content) (position : ScaledPosition)
  | TransformAreaSelection (position : ScaledPosition) (image : string).

(** Callback of a pending [setTimeout]. *)
Inductive TimerCallback :=
  | AddScrollListener.

(** An entry of the [destArray] given to [scrollPageIntoView]. *)
Inductive DestEntry :=
  | DestNull
  | DestName (name : string)
  | DestNumber (q : Q).

(** Calls that leave the component, in the order they are made. *)
Inductive Effect :=
  | CallOnScrollChange
  | CallOnSelectionFinished (position : ScaledPosition) (content : Content)
      (hide transform : Continuation)
  | CallScrollPageIntoView (pageNumber : nat) (destArray : list DestEntry)
  | CallRemoveScrollListener
  | CallAddScrollListener
  | CallSetTimeout (cb : TimerCallback) (ms : nat)
  | CallResetSelection
  | ConsoleLog (msg : string).

Inductive Exn :=
  | TypeError.

(** ** Component state *)

Record St := mkSt {
  (* refs *)
  highlights : list Highlight;
  ghostHighlight : option GhostHighlight;
  isCollapsed : bool;
  range : option Range;
  scrolledToHighlightId : option string;
  isAreaSelectionInProgress : bool;
  containerNode : option Element;
  highlightRoots : gmap nat HighlightRoot;
  viewer : option PDFViewer;
  (* React state *)
  tip : option Tip;
  tipPosition : option ViewportPosition;
  tipChildren : option ReactElement;
  (* environment: DOM, React roots, listeners, timers, calls made *)
  attached : gset Element;
  rootRendered : gmap Root LayerElement;
  nextRootId : nat;
  scrollListener : bool;
  afterSelectionPending : bool;
  timers : list (TimerCallback * nat);
  effects : list Effect
}.

Inductive Outcome (A : Type) :=
  | Returned (a : A) (s : St)
  | Thrown (e : Exn) (s : St).
Arguments Returned {A} a s.
Arguments Thrown {A} e s.

Definition stateOf {A} (o : Outcome A) : St :=
  match o with
  | Returned _ s => s
  | Thrown _ s => s
  end.

Definition returns {A} (o : Outcome A) : bool :=
  match o with
  | Returned _ _ => true
  | Thrown _ _ => false
  end.

(** A handler body: state in, outcome out. *)
Definition M (A : Type) : Type := St → Outcome A.

#[global] Instance M_ret : MRet M := λ A a s, Returned a s.
#[global] Instance M_bind : MBind M := λ A B f m s,
  match m s with
  | Returned a s' => f a s'
  | Thrown e s' => Thrown e s'
  end.

Definition throw {A} (e : Exn) : M A := λ s, Thrown e s.
Definition get : M St := λ s, Returned s s.
Definition gets {A} (f : St → A) : M A := λ s, Returned (f s) s.
Definition modify (f : St → St) : M unit := λ s, Returned tt (f s).

(** Field updates. *)
Definition set_highlights (x : list Highlight) (s : St) : St :=
  mkSt x (ghostHighlight s) (isCollapsed s) (range s)
    (scrolledToHighlightId s) (isAreaSelectionInProgress s) (containerNode s)
    (highlightRoots s) (viewer s) (tip s) (tipPosition s) (tipChildren s)
    (attached s) (rootRendered s) (nextRootId s) (scrollListener s)
    (afterSelectionPending s) (timers s) (effects s).
Definition set_ghostHighlight (x : option GhostHighlight) (s : St) : St :=
  mkSt (highlights s) x (isCollapsed s) (range s) (scrolledToHighlightId s)
    (isAreaSelectionInProgress s) (containerNode s) (highlightRoots s)
    (viewer s) (tip s) (tipPosition s) (tipChildren s) (attached s)
    (rootRendered s) (nextRootId s) (scrollListener s)
    (afterSelectionPending s) (timers s) (effects s).
Definition set_isCollapsed (x : bool) (s : St) : St :=
  mkSt (highlights s) (ghostHighlight s) x (range s) (scrolledToHighlightId s)
    (isAreaSelectionInProgress s) (containerNode s) (highlightRoots s)
    (viewer s) (tip s) (tipPosition s) (tipChildren s) (attached s)
    (rootRendered s) (nextRootId s) (scrollListener s)
    (afterSelectionPending s) (timers s) (effects s).
Definition set_range (x : option Range) (s : St) : St :=
  mkSt (highlights s) (ghostHighlight s) (isCollapsed s) x
    (scrolledToHighlightId s) (isAreaSelectionInProgress s) (containerNode s)
    (highlightRoots s) (viewer s) (tip s) (tipPosition s) (tipChildren s)
    (attached s) (rootRendered s) (nextRootId s) (scrollListener s)
    (afterSelectionPending s) (timers s) (effects s).
Definition set_scrolledToHighlightId (x : option string) (s : St) : St :=
  mkSt (highlights s) (ghostHighlight s) (isCollapsed s) (range s) x
    (isAreaSelectionInProgress s) (containerNode s) (highlightRoots s)
    (viewer s) (tip s) (tipPosition s) (tipChildren s) (attached s)
    (rootRendered s) (nextRootId s) (scrollListener s)
    (afterSelectionPending s) (timers s) (effects s).
Definition set_isAreaSelectionInProgress (x : bool) (s : St) : St :=
  mkSt (highlights s) (ghostHighlight s) (isCollapsed s) (range s)
    (scrolledToHighlightId s) x (containerNode s) (highlightRoots s)
    (viewer s) (tip s) (tipPosition s) (tipChildren s) (attached s)
    (rootRendered s) (nextRootId s) (scrollListener s)
    (afterSelectionPending s) (timers s) (effects s).
Definition set_highlightRoots (x : gmap nat HighlightRoot) (s : St) : St :=
  mkSt (highlights s) (ghostHighlight s) (isCollapsed s) (range s)
    (scrolledToHighlightId s) (isAreaSelectionInProgress s) (containerNode s)
    x (viewer s) (tip s) (tipPosition s) (tipChildren s) (attached s)
    (rootRendered s) (nextRootId s) (scrollListener s)
    (afterSelectionPending s) (timers s) (effects s).
Definition set_tip (x : option Tip) (s : St) : St :=
  mkSt (highlights s) (ghostHighlight s) (isCollapsed s) (range s)
    (scrolledToHighlightId s) (isAreaSelectionInProgress s) (containerNode s)
    (highlightRoots s) (viewer s) x (tipPosition s) (tipChildren s)
    (attached s) (rootRendered s) (nextRootId s) (scrollListener s)
    (afterSelectionPending s) (timers s) (effects s).
Definition set_tipPosition (x : option ViewportPosition) (s : St) : St :=
  mkSt (highlights s) (ghostHighlight s) (isCollapsed s) (range s)
    (scrolledToHighlightId s) (isAreaSelectionInProgress s) (containerNode s)
    (highlightRoots s) (viewer s) (tip s) x (tipChildren s) (attached s)
    (rootRendered s) (nextRootId s) (scrollListener s)
    (afterSelectionPending s) (timers s) (effects s).
Definition set_tipChildren (x : option ReactElement) (s : St) : St :=
  mkSt (highlights s) (ghostHighlight s) (isCollapsed s) (range s)
    (scrolledToHighlightId s) (isAreaSelectionInProgress s) (containerNode s)
    (highlightRoots s) (viewer s) (tip s) (tipPosition s) x (attached s)
    (rootRendered s) (nextRootId s) (scrollListener s)
    (afterSelectionPending s) (timers s) (effects s).
Definition set_rootRendered (x : gmap Root LayerElement) (s : St) : St :=
  mkSt (highlights s) (ghostHighlight s) (isCollapsed s) (range s)
    (scrolledToHighlightId s) (isAreaSelectionInProgress s) (containerNode s)
    (highlightRoots s) (viewer s) (tip s) (tipPosition s) (tipChildren s)
    (attached s) x (nextRootId s) (scrollListener s) (afterSelectionPending s)
    (timers s) (effects s).
Definition set_nextRootId (x : nat) (s : St) : St :=
  mkSt (highlights s) (ghostHighlight s) (isCollapsed s) (range s)
    (scrolledToHighlightId s) (isAreaSelectionInProgress s) (containerNode s)
    (highlightRoots s) (viewer s) (tip s) (tipPosition s) (tipChildren s)
    (attached s) (rootRendered s) x (scrollListener s)
    (afterSelectionPending s) (timers s) (effects s).
Definition set_scrollListener (x : bool) (s : St) : St :=
  mkSt (highlights s) (ghostHighlight s) (isCollapsed s) (range s)
    (scrolledToHighlightId s) (isAreaSelectionInProgress s) (containerNode s)
    (highlightRoots s) (viewer s) (tip s) (tipPosition s) (tipChildren s)
    (attached s) (rootRendered s) (nextRootId s) x (afterSelectionPending s)
    (timers s) (effects s).
Definition set_afterSelectionPending (x : bool) (s : St) : St :=
  mkSt (highlights s) (ghostHighlight s) (isCollapsed s) (range s)
    (scrolledToHighlightId s) (isAreaSelectionInProgress s) (containerNode s)
    (highlightRoots s) (viewer s) (tip s) (tipPosition s) (tipChildren s)
    (attached s) (rootRendered s) (nextRootId s) (scrollListener s) x
    (timers s) (effects s).
Definition set_timers (x : list (TimerCallback * nat)) (s : St) : St :=
  mkSt (highlights s) (ghostHighlight s) (isCollapsed s) (range s)
    (scrolledToHighlightId s) (isAreaSelectionInProgress s) (containerNode s)
    (highlightRoots s) (viewer s) (tip s) (tipPosition s) (tipChildren s)
    (attached s) (rootRendered s) (nextRootId s) (scrollListener s)
    (afterSelectionPending s) x (effects s).
Definition set_effects (x : list Effect) (s : St) : St :=
  mkSt (highlights s) (ghostHighlight s) (isCollapsed s) (range s)
    (scrolledToHighlightId s) (isAreaSelectionInProgress s) (containerNode s)
    (highlightRoots s) (viewer s) (tip s) (tipPosition s) (tipChildren s)
    (attached s) (rootRendered s) (nextRootId s) (scrollListener s)
    (afterSelectionPending s) (timers s) x.

(** An external call, recorded. *)
Definition emit (e : Effect) : M unit :=
  modify (λ s, set_effects (effects s ++ [e]) s).

(** ** Helpers of the repository that the component imports *)

(** Right and bottom edge of a rectangle. *)
Definition r_right (r : LTWHP) : Q := (r_left r + r_width r)%Q.
Definition r_bottom (r : LTWHP) : Q := (r_top r + r_height r)%Q.

(** Modelled from the spec: [getBoundingRect] of ../lib/get-bounding-rect,
    which the component imports and whose source is missing.  The client
    rectangles of a selection are reduced to one bounding rectangle by the
    minimum of the left and top edges and the maximum of the right and
    bottom edges over all of them.  The component calls it on a non-empty
    list only. *)
Definition getBoundingRect (clientRects : list LTWHP) : LTWHP :=
  match clientRects with
  | [] => mkLTWHP 0 0 0 0 0
  | r :: rs =>
      let X0 := foldr (λ r' acc, Qmin (r_left r') acc) (r_left r) rs in
      let Y0 := foldr (λ r' acc, Qmin (r_top r') acc) (r_top r) rs in
      let X1 := foldr (λ r' acc, Qmax (r_right r') acc) (r_right r) rs in
      let Y1 := foldr (λ r' acc, Qmax (r_bottom r') acc) (r_bottom r) rs in
      mkLTWHP X0 Y0 (X1 - X0)%Q (Y1 - Y0)%Q (r_pageNumber r)
  end.

(** The other imported helpers (../lib/coordinates, get-client-rects,
    group-highlights-by-page, pdfjs-dom) and the DOM and viewer queries the
    component makes are taken as an interface: the component only passes
    their results on. *)
Class Lib := {
  getPagesFromRange : Range → option (list Page);
  getClientRects : Range → list Page → list LTWHP;
  viewportPositionToScaled : ViewportPosition → option PDFViewer → ScaledPosition;
  scaledToViewport : Scaled → PageViewport → option bool → LTWHP;
  groupHighlightsByPage :
    list (option (Highlight + GhostHighlight)) → nat → list (Highlight + GhostHighlight);
  findOrCreateContainerLayer : Element → string → Element;
  isHTMLElement : Element → bool;
  closest : Element → string → option Element;
  contains : Element → Element → bool;
  convertToPdfPoint : PageViewport → Q → Q → list Q
}.

(** The props the handlers read. *)
Class Props := {
  numPages : nat;
  onSelectionFinished :
    ScaledPosition → Content → Continuation → Continuation → option ReactElement
}.

(** ** The component *)

Section PdfHighlighter.
Context `{lib : Lib} `{props : Props}.

(** [viewerRef.current!.member]: the assertion is erased at run time, so a
    null viewer makes the member access throw. *)
Definition viewerRef_current : M PDFViewer := λ s,
  match viewer s with
  | Some v => Returned v s
  | None => Thrown TypeError s
  end.

Definition isConnected (e : Element) (s : St) : bool :=
  bool_decide (e ∈ attached s).

(** [createRoot(container)] of react-dom/client: a new root that renders
    nothing yet. *)
Definition createRoot (c : Element) : M Root := λ s,
  Returned (nextRootId s) (set_nextRootId (S (nextRootId s)) s).

(** [root.render(element)]. *)
Definition root_render (root : Root) (el : LayerElement) : M unit :=
  modify (λ s, set_rootRendered (<[root := el]> (rootRendered s)) s).

(** [const { textLayer } = viewer.getPageView(page - 1) || {}]. *)
Definition pageTextLayer (v : PDFViewer) (page : nat) : option TextLayerBuilder :=
  match getPageView v (Z.of_nat page - 1) with
  | Some pageView => textLayer pageView
  | None => None
  end.

Definition findOrCreateHighlightLayer (page : nat) : M (option Element) :=
  v ← viewerRef_current;
  match pageTextLayer v page with
  | None => mret None
  | Some tl =>
      mret (Some (findOrCreateContainerLayer (tl_div tl)
                    "PdfHighlighter__highlight-layer"))
  end.

Definition showTip (t : Tip) : M unit :=
  s ← get;
  if negb (isCollapsed s) || bool_decide (is_Some (ghostHighlight s))
     || isAreaSelectionInProgress s
  then mret tt
  else
    modify (set_tipPosition (Some (vh_position (t_highlight t))));;
    match t_content t with
    | ContentFunction f => modify (set_tipChildren (Some (f (t_highlight t))))
    | ContentElement e => modify (set_tipChildren (Some e))
    end.

(** The element [renderHighlightLayer] builds for a page. *)
Definition highlightLayer (v : PDFViewer) (pageNumber : nat) (s : St) : LayerElement :=
  mkLayerElement
    (groupHighlightsByPage
       ((Some ∘ inl <$> highlights s) ++ [inr <$> ghostHighlight s]))
    pageNumber (scrolledToHighlightId s) v.

Definition renderHighlightLayer (root : Root) (pageNumber : nat) : M unit :=
  s ← get;
  match viewer s with
  | None => mret tt
  | Some v => root_render root (highlightLayer v pageNumber s)
  end.

(** Body of the page loop of [renderHighlightLayers]. *)
Definition renderHighlightLayers_page (pageNumber : nat) : M unit :=
  highlightRoot ← gets (λ s, highlightRoots s !! pageNumber);
  connected ← gets (λ s,
    from_option (λ hr, isConnected (container hr) s) false highlightRoot);
  match highlightRoot, connected with
  | Some hr, true => renderHighlightLayer (reactRoot hr) pageNumber
  | _, _ =>
      highlightLayer ← findOrCreateHighlightLayer pageNumber;
      match highlightLayer with
      | Some layer =>
          root ← createRoot layer;
          modify (λ s, set_highlightRoots
                         (<[pageNumber := mkHighlightRoot root layer]> (highlightRoots s)) s);;
          renderHighlightLayer root pageNumber
      | None => mret tt
      end
  end.

Fixpoint forPages (body : nat → M unit) (pages : list nat) : M unit :=
  match pages with
  | [] => mret tt
  | p :: ps => body p;; forPages body ps
  end.

Definition renderHighlightLayers : M unit :=
  forPages renderHighlightLayers_page (seq 1 numPages).

Definition hideTipAndGhostHighlight : M unit :=
  modify (set_tipPosition None);;
  modify (set_tipChildren None);;
  modify (set_ghostHighlight None);;
  modify (set_tip None);;
  renderHighlightLayers.

(** [setTimeout(cb, ms)]. *)
Definition setTimeout (cb : TimerCallback) (ms : nat) : M unit :=
  modify (λ s, set_timers (timers s ++ [(cb, ms)]) s);;
  emit (CallSetTimeout cb ms).

Definition scrollTo (highlight : Highlight) : M unit :=
  let boundingRect := sp_boundingRect (h_position highlight) in
  let usePdfCoordinates := sp_usePdfCoordinates (h_position highlight) in
  let pageNumber := s_pageNumber boundingRect in
  _ ← viewerRef_current;
  modify (set_scrollListener false);;
  emit CallRemoveScrollListener;;
  v ← viewerRef_current;
  match getPageView v (Z.of_nat pageNumber - 1) with
  | None => throw TypeError
  | Some pageView =>
      let pageViewport := viewport pageView in
      let scrollMargin := 10%Q in
      _ ← viewerRef_current;
      emit (CallScrollPageIntoView pageNumber
              ([DestNull; DestName "XYZ"]
               ++ (DestNumber <$>
                     convertToPdfPoint pageViewport 0%Q
                       (r_top (scaledToViewport boundingRect pageViewport
                                 usePdfCoordinates) - scrollMargin)%Q)
               ++ [DestNumber 0%Q]));;
      modify (set_scrolledToHighlightId (Some (h_id highlight)));;
      renderHighlightLayers;;
      setTimeout AddScrollListener 100
  end.

(** The callback of the timeout set by [scrollTo]. *)
Definition runTimerCallback (cb : TimerCallback) : M unit :=
  match cb with
  | AddScrollListener =>
      _ ← viewerRef_current;
      modify (set_scrollListener true);;
      emit CallAddScrollListener
  end.

(** [debounce(afterSelection, 100)]: a call (re)arms the one pending
    trailing invocation. *)
Definition debouncedAfterSelection : M unit :=
  modify (set_afterSelectionPending true).

(** [selection] is what [getWindow(container).getSelection()] returns. *)
Definition onSelectionChange (selection : option Selection) : M unit :=
  container ← gets containerNode;
  match selection with
  | None => mret tt
  | Some selection =>
      let newRange :=
        if bool_decide (0 < length (sel_ranges selection))
        then sel_ranges selection !! 0 else None in
      if sel_isCollapsed selection then modify (set_isCollapsed true)
      else
        match newRange, container with
        | Some newRange, Some container =>
            if negb (contains container (commonAncestorContainer newRange))
            then mret tt
            else
              modify (set_isCollapsed false);;
              modify (set_range (Some newRange));;
              debouncedAfterSelection
        | _, _ => mret tt
        end
  end.

Definition onScroll : M unit :=
  emit CallOnScrollChange;;
  modify (set_scrolledToHighlightId None);;
  renderHighlightLayers.

Definition onMouseDown (target : Element) : M unit :=
  if negb (isHTMLElement target)
     || bool_decide (is_Some (closest target ".PdfHighlighter__tip-container"))
  then mret tt
  else hideTipAndGhostHighlight.

Definition handleKeyDown (code : string) : M unit :=
  if String.eqb code "Escape" then
    emit (ConsoleLog "Escape!");;
    renderHighlightLayers
    (* hideTipAndGhostHighlight is commented out in the source *)
  else mret tt.

(** The caller's [onSelectionFinished], called and recorded. *)
Definition call_onSelectionFinished (position : ScaledPosition) (content : Content)
    (hide transform : Continuation) : M (option ReactElement) :=
  emit (CallOnSelectionFinished position content hide transform);;
  mret (onSelectionFinished position content hide transform).

Definition afterSelection : M unit :=
  s ← get;
  match range s with
  | None => mret tt
  | Some r =>
      if isCollapsed s then mret tt
      else
        match getPagesFromRange r with
        | None | Some [] => mret tt
        | Some pages =>
            let rects := getClientRects r pages in
            if bool_decide (length rects = 0) then mret tt
            else
              let boundingRect := getBoundingRect rects in
              let viewportPosition := mkViewportPosition boundingRect rects in
              let content := mkContent (Some (range_toString r)) None in
              let scaledPosition :=
                viewportPositionToScaled viewportPosition (viewer s) in
              modify (set_tipPosition (Some viewportPosition));;
              children ← call_onSelectionFinished scaledPosition content
                           HideTipAndGhostHighlight
                           (TransformSelection content scaledPosition);
              modify (set_tipChildren children)
        end
  end.

(** The [afterSelection] prop given to [MouseSelectionRenderer]. *)
Definition afterAreaSelection (viewportPosition : ViewportPosition)
    (scaledPosition : ScaledPosition) (image : string) : M unit :=
  modify (set_tipPosition (Some viewportPosition));;
  children ← call_onSelectionFinished scaledPosition (mkContent None (Some image))
               HideTipAndGhostHighlight
               (TransformAreaSelection scaledPosition image);
  modify (set_tipChildren children).

(** Running a continuation that was handed to [onSelectionFinished]. *)
Definition runContinuation (k : Continuation) : M unit :=
  match k with
  | HideTipAndGhostHighlight => hideTipAndGhostHighlight
  | TransformSelection content position =>
      modify (set_ghostHighlight (Some (mkGhostHighlight content position)));;
      renderHighlightLayers
  | TransformAreaSelection position image =>
      modify (set_ghostHighlight
                (Some (mkGhostHighlight (mkContent None (Some image)) position)));;
      emit CallResetSelection;;
      renderHighlightLayers
  end.

End PdfHighlighter.

(** ** Events

    Everything that makes the component run: DOM events, the debounced call
    and the timeout falling due, and the caller or a child component
    invoking a function it was handed. *)
Inductive Event :=
  | EvSelectionChange (selection : option Selection)
  | EvAfterSelectionDue
  | EvPointerDown (target : Element)
  | EvKeyDown (code : string)
  | EvScroll
  | EvTimeout
  | EvScrollTo (highlight : Highlight)
  | EvContinuation (k : Continuation)
  | EvShowTip (t : Tip)
  | EvSetTip (t : option Tip)
  | EvAreaSelectionChange (isVisible : bool)
  | EvAreaSelection (viewportPosition : ViewportPosition)
      (scaledPosition : ScaledPosition) (image : string)
  | EvHighlights (hs : list Highlight)
  | EvTextLayerRendered.

Section Machine.
Context `{lib : Lib} `{props : Props}.

Definition handle (e : Event) : M unit :=
  match e with
  | EvSelectionChange selection => onSelectionChange selection
  | EvAfterSelectionDue =>
      pending ← gets afterSelectionPending;
      if pending : bool then
        modify (set_afterSelectionPending false);;
        afterSelection
      else mret tt
  | EvPointerDown target => onMouseDown target
  | EvKeyDown code => handleKeyDown code
  | EvScroll =>
      (* the listener is called only while it is registered *)
      listening ← gets scrollListener;
      if listening : bool then onScroll else mret tt
  | EvTimeout =>
      pending ← gets timers;
      match pending with
      | [] => mret tt
      | (cb, _) :: rest => modify (set_timers rest);; runTimerCallback cb
      end
  | EvScrollTo highlight => scrollTo highlight
  | EvContinuation k => runContinuation k
  | EvShowTip t => showTip t
  | EvSetTip t => modify (set_tip t)
  | EvAreaSelectionChange isVisible =>
      modify (set_isAreaSelectionInProgress isVisible)
  | EvAreaSelection viewportPosition scaledPosition image =>
      afterAreaSelection viewportPosition scaledPosition image
  | EvHighlights hs => modify (set_highlights hs);; renderHighlightLayers
  | EvTextLayerRendered => renderHighlightLayers
  end.

(** A handler that throws ends that event only; the next event finds the
    state as the handler left it. *)
Fixpoint run (es : list Event) (s : St) : St :=
  match es with
  | [] => s
  | e :: es' => run es' (stateOf (handle e s))
  end.

(** The ghost highlight an event commits, if it is a commit. *)
Definition committed (e : Event) : option GhostHighlight :=
  match e with
  | EvContinuation (TransformSelection content position) =>
      Some (mkGhostHighlight content position)
  | EvContinuation (TransformAreaSelection position image) =>
      Some (mkGhostHighlight (mkContent None (Some image)) position)
  | _ => None
  end.

(** Whether an event ends in a call of [hideTipAndGhostHighlight]. *)
Definition dismisses (e : Event) : bool :=
  match e with
  | EvContinuation HideTipAndGhostHighlight => true
  | EvPointerDown target =>
      negb (negb (isHTMLElement target)
            || bool_decide (is_Some (closest target ".PdfHighlighter__tip-container")))
  | _ => false
  end.

(** ** Derived notions used in the statements *)

(** The root registered for a page, when its container is still attached
    ([highlightRoot?.container?.isConnected]). *)
Definition connectedRoot (s : St) (p : nat) : option HighlightRoot :=
  match highlightRoots s !! p with
  | Some hr => if isConnected (container hr) s then Some hr else None
  | None => None
  end.

(** What the root registered for a page currently renders. *)
Definition pageContent (s : St) (p : nat) : option LayerElement :=
  match highlightRoots s !! p with
  | Some hr => rootRendered s !! reactRoot hr
  | None => None
  end.

(** Roots registered for pages were allocated by [createRoot], one per
    page. *)
Definition wfRoots (s : St) : Prop :=
  (∀ p hr, highlightRoots s !! p = Some hr → reactRoot hr < nextRootId s) ∧
  (∀ p q hr hr', highlightRoots s !! p = Some hr → highlightRoots s !! q = Some hr' →
     reactRoot hr = reactRoot hr' → p = q).

#[global] Instance wfRoots_dec (s : St) : Decision (wfRoots s).
Proof.
  refine (cast_if (decide
    (map_Forall (λ _ hr, reactRoot hr < nextRootId s) (highlightRoots s) ∧
     map_Forall (λ p hr,
       map_Forall (λ q hr', reactRoot hr = reactRoot hr' → p = q)
         (highlightRoots s)) (highlightRoots s))));
    unfold wfRoots; setoid_rewrite map_Forall_lookup in a || 
    setoid_rewrite map_Forall_lookup in n;
    [destruct a as [Hlt Hinj]; split; [done|]; intros p q hr hr' Hp Hq;
     by apply (Hinj p hr Hp q hr' Hq)
    |intros [Hlt Hinj]; apply n; split; [done|]; intros p hr Hp q hr' Hq;
     by apply (Hinj p q hr hr')].
Defined.

(** [s'] differs from [s] at most in the root registry and the roots. *)
Definition renderFrame (s s' : St) : Prop :=
  s' = set_highlightRoots (highlightRoots s')
         (set_rootRendered (rootRendered s') (set_nextRootId (nextRootId s') s)).

(** One turn of the page loop when the viewer exists. *)
Definition pageStep (v : PDFViewer) (p : nat) (s : St) : St :=
  match connectedRoot s p with
  | Some hr =>
      set_rootRendered (<[reactRoot hr := highlightLayer v p s]> (rootRendered s)) s
  | None =>
      match pageTextLayer v p with
      | Some tl =>
          let layer :=
            findOrCreateContainerLayer (tl_div tl) "PdfHighlighter__highlight-layer" in
          let s1 :=
            set_highlightRoots
              (<[p := mkHighlightRoot (nextRootId s) layer]> (highlightRoots s))
              (set_nextRootId (S (nextRootId s)) s) in
          set_rootRendered
            (<[nextRootId s := highlightLayer v p s1]> (rootRendered s1)) s1
      | None => s
      end
  end.

(** The page loop when the viewer exists. *)
Definition pagesSteps (v : PDFViewer) (ps : list nat) (s : St) : St :=
  foldl (λ s p, pageStep v p s) s ps.

(** What one run of the page loop from [s] to [s'] did for page [p]. *)
Definition pageRendered (v : PDFViewer) (s s' : St) (p : nat) : Prop :=
  match connectedRoot s p with
  | Some hr =>
      highlightRoots s' !! p = Some hr ∧
      rootRendered s' !! reactRoot hr = Some (highlightLayer v p s)
  | None =>
      (∀ hr, highlightRoots s !! p = Some hr →
         rootRendered s' !! reactRoot hr = rootRendered s !! reactRoot hr) ∧
      match pageTextLayer v p with
      | Some tl =>
          ∃ root, nextRootId s ≤ root ∧
            highlightRoots s' !! p =
              Some (mkHighlightRoot root
                      (findOrCreateContainerLayer (tl_div tl)
                         "PdfHighlighter__highlight-layer")) ∧
            rootRendered s' !! root = Some (highlightLayer v p s)
      | None => highlightRoots s' !! p = highlightRoots s !! p
      end
  end.

(** The [destArray] that [scrollTo] hands to [scrollPageIntoView]. *)
Definition scrollDest (h : Highlight) (pageView : PDFPageView) : list DestEntry :=
  [DestNull; DestName "XYZ"]
  ++ (DestNumber <$>
        convertToPdfPoint (viewport pageView) 0%Q
          (r_top (scaledToViewport (sp_boundingRect (h_position h))
                    (viewport pageView) (sp_usePdfCoordinates (h_position h)))
           - 10)%Q)
  ++ [DestNumber 0%Q].

(** [P] survives running [m], whether [m] returns or throws. *)
Definition invariant {A} (P : St → Prop) (m : M A) : Prop :=
  ∀ s, P s → P (stateOf (m s)).

(** [P] does not depend on the root registry or on the roots. *)
Definition frameStable (P : St → Prop) : Prop :=
  ∀ s s', renderFrame s s' → P s → P s'.

(** [r] covers [r']. *)
Definition covers (r r' : LTWHP) : Prop :=
  (r_left r <= r_left r')%Q ∧ (r_top r <= r_top r')%Q ∧
  (r_right r' <= r_right r)%Q ∧ (r_bottom r' <= r_bottom r)%Q.

End Machine.

(** ** Failure modes of the selection and rendering pipeline *)

Inductive Operation :=
  | OnSelectionChange (selection : option Selection)
  | AfterSelection
  | FindOrCreateHighlightLayer (page : nat).

Section Failures.
Context `{lib : Lib} `{props : Props}.

Definition perform (op : Operation) : M (option Element) :=
  match op with
  | OnSelectionChange selection => onSelectionChange selection;; mret None
  | AfterSelection => afterSelection;; mret None
  | FindOrCreateHighlightLayer page => findOrCreateHighlightLayer page
  end.

(** The transient conditions the three operations guard against. *)
Inductive FailureMode (s : St) : Operation → Prop :=
  | MissingContainer selection :
      containerNode s = None →
      FailureMode s (OnSelectionChange selection)
  | NoSelection :
      FailureMode s (OnSelectionChange None)
  | EmptySelection selection :
      sel_ranges selection = [] →
      FailureMode s (OnSelectionChange (Some selection))
  | CollapsedSelection selection :
      sel_isCollapsed selection = true →
      FailureMode s (OnSelectionChange (Some selection))
  | SelectionOutsideContainer selection newRange c :
      sel_ranges selection !! 0 = Some newRange →
      containerNode s = Some c →
      contains c (commonAncestorContainer newRange) = false →
      FailureMode s (OnSelectionChange (Some selection))
  | NoRange :
      range s = None →
      FailureMode s AfterSelection
  | CollapsedRange :
      isCollapsed s = true →
      FailureMode s AfterSelection
  | NoPages r :
      range s = Some r →
      getPagesFromRange r = None ∨ getPagesFromRange r = Some [] →
      FailureMode s AfterSelection
  | NoClientRects r pages :
      range s = Some r →
      getPagesFromRange r = Some pages →
      getClientRects r pages = [] →
      FailureMode s AfterSelection
  | MissingTextLayer v page :
      viewer s = Some v →
      pageTextLayer v page = None →
      FailureMode s (FindOrCreateHighlightLayer page).

End Failures.

(** ** Further notions about the registry and the calls made *)

(** The element a page's root renders is that page's layer. *)
Definition rootsConsistent (s : St) : Prop :=
  map_Forall (λ p hr,
    match rootRendered s !! reactRoot hr with
    | Some el => le_pageNumber el = p
    | None => True
    end) (highlightRoots s).

#[global] Instance rootsConsistent_dec (s : St) : Decision (rootsConsistent s).
Proof.
  apply map_Forall_dec. intros p hr.
  destruct (rootRendered s !! reactRoot hr); apply _.
Defined.

Definition isOnScrollChange (e : Effect) : bool :=
  match e with
  | CallOnScrollChange => true
  | _ => false
  end.

(** How often the caller's [onScrollChange] has been called. *)
Definition onScrollChangeCalls (s : St) : nat :=
  length (List.filter isOnScrollChange (effects s)).

Definition isScrollTo (e : Event) : bool :=
  match e with
  | EvScrollTo _ => true
  | _ => false
  end.

(** ** Mounting, unmounting and the scale value

    The rest of the component: the effect that runs on mount and its
    cleanup, [onDocumentReady], and the handling of [pdfScaleValue].  Their
    state (two more refs, one more state cell, the listeners the effect
    registers) wraps the state of the handlers above. *)

(** Calls on the link service, the viewer and the [scrollRef] prop. *)
Inductive HostCall :=
  | LinkServiceSetDocument
  | LinkServiceSetViewer (v : PDFViewer)
  | ViewerSetDocument
  | CallScrollRef.

(** A debounced function is created in the component body, hence anew at
    every render.  The closures of the mount effect (the resize observer
    and [onDocumentReady]) and the first run of the scale effect hold the
    one of the first render; the scale effect of a later render holds the
    one of that render, which nothing else ever calls. *)
Inductive DebounceInstance :=
  | FirstRender
  | LaterRender.

Record Host := mkHost {
  component : St;
  pdfScaleValueRef : string;
  (* [viewer.currentScaleValue], as last assigned by the component *)
  currentScaleValue : option string;
  (* the debounced scale updates that are armed, oldest first *)
  scaleValuePending : list DebounceInstance;
  (* [resizeObserverRef.current]: null, or an observer that observes the
     container or not *)
  resizeObserver : option bool;
  textlayerrenderedListener : bool;
  pagesinitListener : bool;
  selectionchangeListener : bool;
  keydownListener : bool;
  isViewerReady : bool;
  (* the mount effect returned a cleanup that has not run yet *)
  cleanupPending : bool;
  hostCalls : list HostCall
}.

Inductive HostOutcome :=
  | HostReturned (h : Host)
  | HostThrown (e : Exn) (h : Host).

Definition hostOf (o : HostOutcome) : Host :=
  match o with
  | HostReturned h => h
  | HostThrown _ h => h
  end.

Definition set_component (x : St) (h : Host) : Host :=
  mkHost x (pdfScaleValueRef h) (currentScaleValue h) (scaleValuePending h)
    (resizeObserver h) (textlayerrenderedListener h) (pagesinitListener h)
    (selectionchangeListener h) (keydownListener h) (isViewerReady h)
    (cleanupPending h) (hostCalls h).
Definition set_pdfScaleValueRef (x : string) (h : Host) : Host :=
  mkHost (component h) x (currentScaleValue h) (scaleValuePending h)
    (resizeObserver h) (textlayerrenderedListener h) (pagesinitListener h)
    (selectionchangeListener h) (keydownListener h) (isViewerReady h)
    (cleanupPending h) (hostCalls h).
Definition set_currentScaleValue (x : option string) (h : Host) : Host :=
  mkHost (component h) (pdfScaleValueRef h) x (scaleValuePending h)
    (resizeObserver h) (textlayerrenderedListener h) (pagesinitListener h)
    (selectionchangeListener h) (keydownListener h) (isViewerReady h)
    (cleanupPending h) (hostCalls h).
Definition set_scaleValuePending (x : list DebounceInstance) (h : Host) : Host :=
  mkHost (component h) (pdfScaleValueRef h) (currentScaleValue h) x
    (resizeObserver h) (textlayerrenderedListener h) (pagesinitListener h)
    (selectionchangeListener h) (keydownListener h) (isViewerReady h)
    (cleanupPending h) (hostCalls h).
Definition set_hostCalls (x : list HostCall) (h : Host) : Host :=
  mkHost (component h) (pdfScaleValueRef h) (currentScaleValue h)
    (scaleValuePending h) (resizeObserver h) (textlayerrenderedListener h)
    (pagesinitListener h) (selectionchangeListener h) (keydownListener h)
    (isViewerReady h) (cleanupPending h) x.

Definition set_viewer (x : option PDFViewer) (s : St) : St :=
  mkSt (highlights s) (ghostHighlight s) (isCollapsed s) (range s)
    (scrolledToHighlightId s) (isAreaSelectionInProgress s) (containerNode s)
    (highlightRoots s) x (tip s) (tipPosition s) (tipChildren s)
    (attached s) (rootRendered s) (nextRootId s) (scrollListener s)
    (afterSelectionPending s) (timers s) (effects s).

(** [debounce(handleScaleValue, 100)], as created by render [i]: a call of
    the first render's function puts off its one pending trailing
    invocation; the function of a later render is called once and so adds
    an invocation of its own. *)
Definition isLaterRender (i : DebounceInstance) : bool :=
  match i with
  | FirstRender => false
  | LaterRender => true
  end.

Definition debouncedScaleValue (i : DebounceInstance) (h : Host) : Host :=
  match i with
  | FirstRender =>
      set_scaleValuePending
        (List.filter isLaterRender (scaleValuePending h) ++ [FirstRender]) h
  | LaterRender =>
      set_scaleValuePending (scaleValuePending h ++ [LaterRender]) h
  end.

(** The effect of the first [useEffect], run on mount.  An element always
    has an owner document, so [doc] is missing exactly when the container
    is.  A new viewer has no page views yet. *)
Definition mountEffect (h : Host) : Host :=
  match containerNode (component h) with
  | None =>
      mkHost (component h) (pdfScaleValueRef h) (currentScaleValue h)
        (scaleValuePending h) (Some false) (textlayerrenderedListener h)
        (pagesinitListener h) (selectionchangeListener h) (keydownListener h)
        (isViewerReady h) false (hostCalls h)
  | Some c =>
      let v := match viewer (component h) with
               | Some v => v
               | None => mkPDFViewer c []
               end in
      mkHost (set_viewer (Some v) (component h)) (pdfScaleValueRef h)
        (match viewer (component h) with
         | Some _ => currentScaleValue h
         | None => None
         end)
        (scaleValuePending h) (Some true) true true true true true true
        (hostCalls h
         ++ [LinkServiceSetDocument; LinkServiceSetViewer v; ViewerSetDocument])
  end.

(** The cleanup the effect returns. *)
Definition cleanupEffect (h : Host) : Host :=
  mkHost (component h) (pdfScaleValueRef h) (currentScaleValue h)
    (scaleValuePending h)
    (match resizeObserver h with
     | Some _ => Some false
     | None => None
     end)
    false false false false false false (hostCalls h).

(** [if (viewerRef)] tests the ref object, which always exists; the
    assignment then dereferences [viewerRef.current]. *)
Definition handleScaleValue (h : Host) : HostOutcome :=
  match viewer (component h) with
  | None => HostThrown TypeError h
  | Some _ => HostReturned (set_currentScaleValue (Some (pdfScaleValueRef h)) h)
  end.

Definition onDocumentReady (h : Host) : Host :=
  set_hostCalls (hostCalls h ++ [CallScrollRef])
    (debouncedScaleValue FirstRender h).

(** The effect of [useEffect(…, [pdfScaleValue])], run after render [i]. *)
Definition pdfScaleValueEffect (i : DebounceInstance) (pdfScaleValue : string)
    (h : Host) : Host :=
  debouncedScaleValue i (set_pdfScaleValueRef pdfScaleValue h).

(** [HostUnmount] stands for the cleanup running; that React also clears
    the container ref at that point is not modelled.  [HostScaleEffect] is
    the first run of the scale effect, after mounting;
    [HostPdfScaleValue] is a change of the prop, hence a later render.
    [HostScaleValueDue] is the oldest armed scale update falling due. *)
Inductive HostEvent :=
  | HostMount
  | HostUnmount
  | HostPagesInit
  | HostResize
  | HostScaleValueDue
  | HostScaleEffect
  | HostPdfScaleValue (pdfScaleValue : string)
  | HostComponent (e : Event).

Section HostMachine.
Context `{lib : Lib} `{props : Props}.

(** Whether an event of the component still has a listener to arrive at. *)
Definition delivered (e : Event) (h : Host) : bool :=
  match e with
  | EvSelectionChange _ => selectionchangeListener h
  | EvKeyDown _ => keydownListener h
  | EvTextLayerRendered => textlayerrenderedListener h
  | _ => true
  end.

Definition hostHandle (e : HostEvent) (h : Host) : HostOutcome :=
  match e with
  | HostMount => HostReturned (mountEffect h)
  | HostUnmount =>
      if cleanupPending h then HostReturned (cleanupEffect h) else HostReturned h
  | HostPagesInit =>
      if pagesinitListener h then HostReturned (onDocumentReady h)
      else HostReturned h
  | HostResize =>
      match resizeObserver h with
      | Some true => HostReturned (debouncedScaleValue FirstRender h)
      | _ => HostReturned h
      end
  | HostScaleValueDue =>
      match scaleValuePending h with
      | [] => HostReturned h
      | _ :: rest => handleScaleValue (set_scaleValuePending rest h)
      end
  | HostScaleEffect =>
      HostReturned (pdfScaleValueEffect FirstRender (pdfScaleValueRef h) h)
  | HostPdfScaleValue pdfScaleValue =>
      HostReturned (pdfScaleValueEffect LaterRender pdfScaleValue h)
  | HostComponent e =>
      if delivered e h then
        match handle e (component h) with
        | Returned _ s => HostReturned (set_component s h)
        | Thrown x s => HostThrown x (set_component s h)
        end
      else HostReturned h
  end.

Fixpoint hostRun (es : list HostEvent) (h : Host) : Host :=
  match es with
  | [] => h
  | e :: es' => hostRun es' (hostOf (hostHandle e h))
  end.

End HostMachine.

(** ** A concrete document, used to run the handlers *)

Module Example.

Definition toScaled (r : LTWHP) : Scaled :=
  mkScaled (r_left r) (r_top r) (r_right r) (r_bottom r) 0 0 (r_pageNumber r).

#[export] Instance lib : Lib := {|
  getPagesFromRange r :=
    if Nat.eqb (commonAncestorContainer r) 0 then None else Some [mkPage 10 1];
  getClientRects r pages :=
    [mkLTWHP 10 20 30 5 1; mkLTWHP 4 25 50 5 1];
  viewportPositionToScaled vp v :=
    mkScaledPosition (toScaled (vp_boundingRect vp)) (toScaled <$> vp_rects vp) None;
  scaledToViewport sc vp flag :=
    mkLTWHP (x1 sc) (y1 sc) (x2 sc - x1 sc) (y2 sc - y1 sc) (s_pageNumber sc);
  groupHighlightsByPage hs p := omap id hs;
  findOrCreateContainerLayer div className := S div;
  isHTMLElement e := true;
  closest e selector := if Nat.eqb e 50 then Some 50 else None;
  contains c e := negb (Nat.eqb e 99);
  convertToPdfPoint vp x y := [x; y]
|}.

#[export] Instance props : Props := {|
  numPages := 3;
  onSelectionFinished position content hide transform := Some "tip"
|}.

Definition pageViewport : PageViewport := mkPageViewport 600 800 1.

(** Three pages; the third has no text layer at the moment. *)
Definition pdfViewer : PDFViewer :=
  mkPDFViewer 1
    [mkPDFPageView (Some (mkTextLayerBuilder 10)) pageViewport;
     mkPDFPageView (Some (mkTextLayerBuilder 20)) pageViewport;
     mkPDFPageView None pageViewport].

Definition position : ScaledPosition :=
  mkScaledPosition (mkScaled 4 20 54 30 0 0 1) [mkScaled 4 20 54 30 0 0 1] None.

Definition highlight : Highlight :=
  mkHighlight "h1" position (mkContent (Some "text") None).

Definition ghost : GhostHighlight :=
  mkGhostHighlight (mkContent (Some "selected") None) position.

(** The state after mounting: viewer created, nothing rendered yet. *)
Definition mounted : St :=
  mkSt [highlight] None true None None false (Some 2) ∅ (Some pdfViewer)
    None None None {[1; 2; 10; 20]} ∅ 0 false false [] [].

(** Page 1 has a live root, page 2 a root whose container was detached. *)
Definition rendered : St :=
  set_highlightRoots
    {[1 := mkHighlightRoot 0 11; 2 := mkHighlightRoot 1 77]}
    (set_nextRootId 2
       (mkSt [highlight] None true None None false (Some 2) ∅ (Some pdfViewer)
          None None None {[1; 2; 10; 11; 20]} ∅ 0 false false [] [])).

Definition selectedRange : Range := mkRange 10 "selected".

(** A settled text selection, not yet processed. *)
Definition selected : St :=
  set_range (Some selectedRange) (set_isCollapsed false rendered).

(** A selection committed as ghost highlight, with its tip showing. *)
Definition withGhost : St :=
  set_tipChildren (Some "tip")
    (set_tipPosition
       (Some (mkViewportPosition (mkLTWHP 4 20 50 10 1) [mkLTWHP 4 20 50 10 1]))
       (set_ghostHighlight (Some ghost) rendered)).

(** A tip over an existing highlight, as [HighlightLayer] would show it. *)
Definition tipOverHighlight : Tip :=
  mkTip
    (mkViewportHighlight "h1"
       (mkViewportPosition (mkLTWHP 4 20 50 10 1) [mkLTWHP 4 20 50 10 1])
       (mkContent (Some "text") None))
    (ContentElement "comment").

(** A non-collapsed selection of [selectedRange], and a collapsed one. *)
Definition textSelection : Selection := mkSelection false [selectedRange].
Definition caret : Selection := mkSelection true [].

(** A highlight on a page the document does not have. *)
Definition strayHighlight : Highlight :=
  mkHighlight "h7"
    (mkScaledPosition (mkScaled 4 20 54 30 0 0 7) [mkScaled 4 20 54 30 0 0 7] None)
    (mkContent (Some "text") None).

(** The component before its first mount, without and with a container. *)
Definition unmountedState (c : option Element) : St :=
  mkSt [highlight] None true None None false c ∅ None
    None None None {[1; 2; 10; 20]} ∅ 0 false false [] [].

Definition hostWithoutContainer : Host :=
  mkHost (unmountedState None) "auto" None [] None
    false false false false false false [].

Definition hostBeforeMount : Host :=
  mkHost (unmountedState (Some 2)) "auto" None [] None
    false false false false false false [].


End Example.

(** ** Proofs *)

Ltac st_simpl :=
  cbn [stateOf returns from_option
       highlights ghostHighlight isCollapsed range scrolledToHighlightId
       isAreaSelectionInProgress containerNode highlightRoots viewer tip
       tipPosition tipChildren attached rootRendered nextRootId scrollListener
       afterSelectionPending timers effects
       set_highlights set_ghostHighlight set_isCollapsed set_range
       set_scrolledToHighlightId set_isAreaSelectionInProgress
       set_highlightRoots set_tip set_tipPosition set_tipChildren
       set_rootRendered set_nextRootId set_scrollListener
       set_afterSelectionPending set_timers set_effects] in *.

Ltac unfold_m :=
  unfold emit in *;
  unfold mbind, M_bind, mret, M_ret, modify, get, gets, throw in *;
  cbv beta iota in *; st_simpl.

Section Proofs.
Context `{lib : Lib} `{props : Props}.

Lemma renderFrame_refl s : renderFrame s s.
Proof. unfold renderFrame. by destruct s. Qed.

Lemma renderFrame_trans s1 s2 s3 :
  renderFrame s1 s2 → renderFrame s2 s3 → renderFrame s1 s3.
Proof.
  unfold renderFrame. destruct s1, s2, s3. cbn. intros H12 H23.
  injection H12 as ->. injection H23 as ->. subst. reflexivity.
Qed.


Lemma renderHighlightLayers_page_eq p s v :
  viewer s = Some v →
  renderHighlightLayers_page p s = Returned tt (pageStep v p s).
Proof.
  intros Hv.
  unfold renderHighlightLayers_page, pageStep, connectedRoot, renderHighlightLayer,
    root_render, findOrCreateHighlightLayer, viewerRef_current, createRoot.
  unfold_m.
  destruct (highlightRoots s !! p) as [hr|]; unfold_m;
    [destruct (isConnected (container hr) s)|]; unfold_m; rewrite ?Hv; unfold_m;
    try reflexivity.
  all: destruct (pageTextLayer v p); unfold_m;
    rewrite ?Hv; unfold_m; reflexivity.
Qed.

Lemma renderHighlightLayers_page_no_viewer p s :
  viewer s = None → stateOf (renderHighlightLayers_page p s) = s.
Proof.
  intros Hv.
  unfold renderHighlightLayers_page, renderHighlightLayer,
    root_render, findOrCreateHighlightLayer, viewerRef_current.
  unfold_m.
  destruct (highlightRoots s !! p) as [hr|]; unfold_m;
    [destruct (isConnected (container hr) s)|]; unfold_m; rewrite ?Hv; unfold_m;
    reflexivity.
Qed.

Lemma pageStep_frame v p s : renderFrame s (pageStep v p s).
Proof.
  unfold pageStep, renderFrame.
  destruct (connectedRoot s p); [by destruct s|].
  destruct (pageTextLayer v p); by destruct s.
Qed.

Lemma renderFrame_viewer s s' : renderFrame s s' → viewer s' = viewer s.
Proof. unfold renderFrame. intros ->. reflexivity. Qed.

Lemma renderFrame_attached s s' : renderFrame s s' → attached s' = attached s.
Proof. unfold renderFrame. intros ->. reflexivity. Qed.

Lemma renderFrame_highlightLayer v p s s' :
  renderFrame s s' → highlightLayer v p s' = highlightLayer v p s.
Proof. unfold renderFrame. intros ->. reflexivity. Qed.

Lemma pagesSteps_frame v ps s : renderFrame s (pagesSteps v ps s).
Proof.
  revert s. induction ps as [|p ps IH]; intros s; simpl.
  - apply renderFrame_refl.
  - eapply renderFrame_trans; [apply pageStep_frame|apply IH].
Qed.

Lemma forPages_eq v ps s :
  viewer s = Some v →
  forPages renderHighlightLayers_page ps s = Returned tt (pagesSteps v ps s).
Proof.
  revert s. induction ps as [|p ps IH]; intros s Hv; simpl; [done|].
  unfold mbind, M_bind. rewrite (renderHighlightLayers_page_eq _ _ _ Hv).
  apply IH. by rewrite (renderFrame_viewer _ _ (pageStep_frame v p s)).
Qed.

Lemma renderHighlightLayers_eq v s :
  viewer s = Some v →
  renderHighlightLayers s = Returned tt (pagesSteps v (seq 1 numPages) s).
Proof. apply forPages_eq. Qed.

Lemma forPages_no_viewer ps s :
  viewer s = None → stateOf (forPages renderHighlightLayers_page ps s) = s.
Proof.
  intros Hv. induction ps as [|p ps IH]; simpl; [done|].
  unfold mbind, M_bind.
  pose proof (renderHighlightLayers_page_no_viewer p s Hv) as Hp.
  destruct (renderHighlightLayers_page p s) as [[] s1|e s1]; simpl in Hp; subst; done.
Qed.

Lemma renderHighlightLayers_frame s :
  renderFrame s (stateOf (renderHighlightLayers s)).
Proof.
  destruct (viewer s) as [v|] eqn:Hv.
  - rewrite (renderHighlightLayers_eq v s Hv). apply pagesSteps_frame.
  - unfold renderHighlightLayers. rewrite forPages_no_viewer by done.
    apply renderFrame_refl.
Qed.

Lemma connectedRoot_Some s p hr :
  connectedRoot s p = Some hr →
  highlightRoots s !! p = Some hr ∧ isConnected (container hr) s = true.
Proof.
  unfold connectedRoot. destruct (highlightRoots s !! p) as [hr'|]; [|done].
  destruct (isConnected (container hr') s) eqn:Hc; [|done].
  by intros [= ->].
Qed.

Lemma connectedRoot_frame s s' q :
  renderFrame s s' → highlightRoots s' !! q = highlightRoots s !! q →
  connectedRoot s' q = connectedRoot s q.
Proof.
  intros Hf Hq. unfold connectedRoot, isConnected.
  by rewrite Hq, (renderFrame_attached _ _ Hf).
Qed.

Lemma pageStep_roots_ne v p q s :
  q ≠ p → highlightRoots (pageStep v p s) !! q = highlightRoots s !! q.
Proof.
  intros Hne. unfold pageStep.
  destruct (connectedRoot s p); [done|].
  destruct (pageTextLayer v p); [|done].
  st_simpl. by rewrite lookup_insert_ne.
Qed.

Lemma pageStep_nextRootId v p s : nextRootId s ≤ nextRootId (pageStep v p s).
Proof.
  unfold pageStep.
  destruct (connectedRoot s p); [done|].
  destruct (pageTextLayer v p); st_simpl; lia.
Qed.

Lemma pageStep_rendered_other v p s r :
  r < nextRootId s →
  (∀ hr, connectedRoot s p = Some hr → reactRoot hr ≠ r) →
  rootRendered (pageStep v p s) !! r = rootRendered s !! r.
Proof.
  intros Hr Hne. unfold pageStep.
  destruct (connectedRoot s p) as [hr|].
  - st_simpl. rewrite lookup_insert_ne; [done|]. by apply Hne.
  - destruct (pageTextLayer v p); [|done].
    st_simpl. rewrite lookup_insert_ne; [done|lia].
Qed.

Lemma pageStep_wf v p s : wfRoots s → wfRoots (pageStep v p s).
Proof.
  intros [Hlt Hinj]. unfold pageStep.
  destruct (connectedRoot s p) as [hr|]; [by split|].
  destruct (pageTextLayer v p) as [tl|]; [|by split].
  split; st_simpl.
  - intros q hr Hq. destruct (decide (q = p)) as [->|Hne].
    + rewrite lookup_insert_eq in Hq. injection Hq as <-. simpl. lia.
    + rewrite lookup_insert_ne in Hq by done. apply Hlt in Hq. lia.
  - intros q q' hr hr' Hq Hq' Heq.
    destruct (decide (q = p)) as [->|Hne], (decide (q' = p)) as [->|Hne'];
      [done| | |].
    + rewrite lookup_insert_eq in Hq. injection Hq as <-.
      rewrite lookup_insert_ne in Hq' by done. apply Hlt in Hq'.
      simpl in Heq. lia.
    + rewrite lookup_insert_eq in Hq'. injection Hq' as <-.
      rewrite lookup_insert_ne in Hq by done. apply Hlt in Hq.
      simpl in Heq. lia.
    + rewrite lookup_insert_ne in Hq, Hq' by done. eauto.
Qed.

Lemma pageStep_rendered v p s : wfRoots s → pageRendered v s (pageStep v p s) p.
Proof.
  intros [Hlt Hinj]. unfold pageRendered, pageStep.
  destruct (connectedRoot s p) as [hr|] eqn:Hc.
  - apply connectedRoot_Some in Hc as [Hp _]. st_simpl.
    by rewrite lookup_insert_eq.
  - destruct (pageTextLayer v p) as [tl|]; [|done].
    st_simpl. split.
    + intros hr Hhr. apply Hlt in Hhr. rewrite lookup_insert_ne; [done|lia].
    + exists (nextRootId s). by rewrite !lookup_insert_eq.
Qed.

Lemma pagesSteps_spec v ps : NoDup ps → ∀ s, wfRoots s →
  wfRoots (pagesSteps v ps s) ∧
  nextRootId s ≤ nextRootId (pagesSteps v ps s) ∧
  (∀ q, q ∉ ps → highlightRoots (pagesSteps v ps s) !! q = highlightRoots s !! q) ∧
  (∀ r, r < nextRootId s →
     (∀ q hr, q ∈ ps → connectedRoot s q = Some hr → reactRoot hr ≠ r) →
     rootRendered (pagesSteps v ps s) !! r = rootRendered s !! r) ∧
  (∀ p, p ∈ ps → pageRendered v s (pagesSteps v ps s) p).
Proof.
  induction 1 as [|p ps Hp Hnd IH]; intros s Hwf; simpl.
  { split_and!; [done..|]. intros p Hp. by apply elem_of_nil in Hp. }
  set (s1 := pageStep v p s).
  assert (Hwf1 : wfRoots s1) by by apply pageStep_wf.
  assert (Hf1 : renderFrame s s1) by apply pageStep_frame.
  assert (Hn1 : nextRootId s ≤ nextRootId s1) by apply pageStep_nextRootId.
  destruct (IH s1 Hwf1) as (Hwf' & Hn' & Hroots' & Hrend' & Hpages').
  assert (Hconn : ∀ q, q ≠ p → connectedRoot s1 q = connectedRoot s q).
  { intros q Hq. apply connectedRoot_frame; [done|]. by apply pageStep_roots_ne. }
  assert (Hin : ∀ q, q ∈ ps → q ≠ p) by (intros q Hq ->; done).
  split_and!; [done|lia|..].
  - intros q Hq. apply not_elem_of_cons in Hq as [Hqp Hq].
    rewrite Hroots' by done. by apply pageStep_roots_ne.
  - intros r Hr Hne. rewrite Hrend'.
    + apply pageStep_rendered_other; [done|].
      intros hr Hhr. eapply Hne; [|done]. left.
    + lia.
    + intros q hr Hq Hhr. rewrite Hconn in Hhr by auto.
      eapply Hne; [|done]. by right.
  - intros p0 Hp0. apply elem_of_cons in Hp0 as [->|Hp0].
    + pose proof (pageStep_rendered v p s Hwf) as Hstep. fold s1 in Hstep.
      destruct Hwf as [Hlt Hinj], Hwf1 as [Hlt1 Hinj1].
      unfold pageRendered in *.
      destruct (connectedRoot s p) as [hr|] eqn:Hc.
      * destruct Hstep as [Hr1 Hc1]. split.
        -- by rewrite Hroots'.
        -- rewrite Hrend'; [done|by eapply Hlt1|].
           intros q hr' Hq Hhr'. apply connectedRoot_Some in Hhr' as [Hhr' _].
           intros Heq. apply (Hin q Hq). by eapply Hinj1.
      * destruct Hstep as [Hstale Hstep]. split.
        -- intros hr Hhr. rewrite Hrend'; [by apply Hstale| |].
           ++ apply Hlt in Hhr. lia.
           ++ intros q hr' Hq Hhr'. rewrite Hconn in Hhr' by auto.
              apply connectedRoot_Some in Hhr' as [Hhr' _].
              intros Heq. apply (Hin q Hq). by eapply Hinj.
        -- destruct (pageTextLayer v p) as [tl|].
           ++ destruct Hstep as (root & Hroot & Hr1 & Hc1).
              exists root. split_and!; [done|by rewrite Hroots'|].
              rewrite Hrend'; [done|by apply Hlt1 in Hr1|].
              intros q hr' Hq Hhr'. apply connectedRoot_Some in Hhr' as [Hhr' _].
              intros Heq. apply (Hin q Hq).
              by apply (Hinj1 _ _ _ _ Hhr' Hr1).
           ++ by rewrite Hroots'.
    + specialize (Hpages' p0 Hp0). specialize (Hin p0 Hp0).
      destruct Hwf as [Hlt Hinj].
      unfold pageRendered in *. rewrite Hconn in Hpages' by done.
      rewrite (renderFrame_highlightLayer _ _ _ _ Hf1) in Hpages'.
      destruct (connectedRoot s p0) as [hr|] eqn:Hc; [done|].
      destruct Hpages' as [Hstale Hpage]. split.
      * intros hr Hhr.
        rewrite Hstale by (unfold s1; by rewrite pageStep_roots_ne).
        apply pageStep_rendered_other; [by eapply Hlt|].
        intros hr' Hhr' Heq. apply connectedRoot_Some in Hhr' as [Hhr' _].
        apply Hin. by eapply Hinj.
      * destruct (pageTextLayer v p0) as [tl|].
        -- destruct Hpage as (root & Hroot & Hr1 & Hc1).
           exists root. split_and!; [lia|done..].
        -- rewrite Hpage. by apply pageStep_roots_ne.
Qed.

(** *** The tip *)

(** C9.  When the current selection is not collapsed, or a ghost highlight
    exists, or an area selection is in progress, [showTip] returns without
    changing any state: in particular the tip position and the tip children
    stay exactly as they were. *)
Theorem showTip_guarded (t : Tip) (s : St) :
  isCollapsed s = false ∨ is_Some (ghostHighlight s)
    ∨ isAreaSelectionInProgress s = true →
  showTip t s = Returned tt s.
Proof.
  intros Hguard. unfold showTip. unfold_m.
  destruct (isCollapsed s); simpl; [|done].
  case_bool_decide as Hg; simpl; [done|].
  destruct (isAreaSelectionInProgress s); [done|].
  destruct Hguard as [?|[?|?]]; done.
Qed.

Lemma showTip_shows (t : Tip) (s : St) :
  isCollapsed s = true → ghostHighlight s = None →
  isAreaSelectionInProgress s = false →
  tipPosition (stateOf (showTip t s)) = Some (vh_position (t_highlight t)).
Proof.
  intros Hc Hg Ha. unfold showTip. unfold_m. rewrite Hc, Hg, Ha. simpl.
  by destruct (t_content t).
Qed.

(** *** Failure modes *)

Lemma onSelectionChange_state selection s :
  ∃ s', onSelectionChange selection s = Returned tt s' ∧
    (s' = s ∨ s' = set_isCollapsed true s
     ∨ ∃ r, s' = set_afterSelectionPending true
                   (set_range (Some r) (set_isCollapsed false s))).
Proof.
  unfold onSelectionChange, debouncedAfterSelection. unfold_m.
  destruct selection as [sel|]; [|by eauto].
  destruct (sel_isCollapsed sel); [by eauto|].
  destruct (if bool_decide (0 < length (sel_ranges sel))
            then sel_ranges sel !! 0 else None) as [r|]; [|by eauto].
  destruct (containerNode s) as [c|]; [|by eauto].
  destruct (contains c (commonAncestorContainer r)); simpl; [|by eauto].
  eexists. split; [reflexivity|]. right. right. by exists r.
Qed.

(** A selection-change event computes no coordinates and calls nobody: at
    most it records the range and arms the debounced [afterSelection]. *)
Lemma onSelectionChange_defers selection s :
  let s' := stateOf (onSelectionChange selection s) in
  effects s' = effects s ∧ tipPosition s' = tipPosition s ∧
  tipChildren s' = tipChildren s.
Proof.
  destruct (onSelectionChange_state selection s)
    as (s' & -> & [->|[->|[r ->]]]); by destruct s.
Qed.

(** The conditions the three operations do guard against (for
    [findOrCreateHighlightLayer]: a missing page view or text layer, the
    viewer being there).  Each makes the operation return early: it does not
    throw, leaves tip, ghost highlight and highlight roots as they were,
    arms no debounced call and makes no outside call; the state is
    unchanged except that a collapsed selection is recorded as such, and
    [findOrCreateHighlightLayer] returns null. *)
Theorem failure_modes_return_early (op : Operation) (s : St) :
  FailureMode s op →
  ∃ s', perform op s = Returned None s' ∧
    (s' = s ∨ s' = set_isCollapsed true s) ∧
    tip s' = tip s ∧ tipPosition s' = tipPosition s ∧
    tipChildren s' = tipChildren s ∧
    ghostHighlight s' = ghostHighlight s ∧
    highlightRoots s' = highlightRoots s ∧ rootRendered s' = rootRendered s ∧
    range s' = range s ∧ afterSelectionPending s' = afterSelectionPending s ∧
    effects s' = effects s.
Proof.
  intros Hfail.
  assert (Hrun : perform op s = Returned None s
                 ∨ perform op s = Returned None (set_isCollapsed true s)).
  2: { destruct Hrun as [Hrun|Hrun]; rewrite Hrun; eexists;
       (split; [reflexivity|]); (split; [auto|]); by destruct s. }
  destruct Hfail as [sel Hc| |sel Hr|sel Hcol|sel r c Hr Hc Hout
                    |Hr|Hcol|r Hr Hp|r pages Hr Hp Hrects|v page Hv Htl];
    unfold perform, onSelectionChange, afterSelection,
      findOrCreateHighlightLayer, viewerRef_current; unfold_m.
  - rewrite Hc. destruct sel as [sel|]; [|by left].
    destruct (sel_isCollapsed sel);
      [by right|].
    destruct (if bool_decide (0 < length (sel_ranges sel))
              then sel_ranges sel !! 0 else None);
      by left.
  - by left.
  - rewrite Hr. simpl.
    destruct (sel_isCollapsed sel);
      [by right|].
    by left.
  - rewrite Hcol. by right.
  - destruct (sel_isCollapsed sel);
      [by right|].
    rewrite bool_decide_eq_true_2, Hr, Hc, Hout
      by (destruct (sel_ranges sel); [done|simpl; lia]).
    by left.
  - rewrite Hr. by left.
  - rewrite Hcol. destruct (range s); by left.
  - rewrite Hr. destruct (isCollapsed s); [by left|].
    destruct Hp as [-> | ->]; by left.
  - rewrite Hr. destruct (isCollapsed s); [by left|].
    rewrite Hp, Hrects. destruct pages; by left.
  - rewrite Hv. unfold_m. rewrite Htl. by left.
Qed.

(** *** Rendering the highlight layers *)

Lemma seq_pages p : 1 ≤ p ≤ numPages ↔ p ∈ seq 1 numPages.
Proof. rewrite elem_of_seq. lia. Qed.

Lemma wfRoots_fresh s root :
  wfRoots s → nextRootId s ≤ root →
  ∀ q hr, highlightRoots s !! q = Some hr → reactRoot hr ≠ root.
Proof. intros [Hlt _] Hroot q hr Hq. apply Hlt in Hq. lia. Qed.

(** C3.  In one run of [renderHighlightLayers], every page of the document
    is treated as follows.  A page whose registered container is still
    attached keeps its root, and that root renders the page's layer.  A page
    whose container is detached, or that has no root yet, leaves the stale
    root untouched; if the page has a text layer, a root that did not exist
    before is created on the highlight layer container of that text layer,
    registered for the page, and renders the page's layer; if the page has
    no text layer, nothing is registered or rendered for it. *)
Theorem renderHighlightLayers_per_page (s : St) (v : PDFViewer) (p : nat) :
  viewer s = Some v → wfRoots s → 1 ≤ p ≤ numPages →
  ∃ s', renderHighlightLayers s = Returned tt s' ∧
    (∀ hr, connectedRoot s p = Some hr →
       highlightRoots s' !! p = Some hr ∧
       rootRendered s' !! reactRoot hr = Some (highlightLayer v p s)) ∧
    (connectedRoot s p = None →
       (∀ stale, highlightRoots s !! p = Some stale →
          rootRendered s' !! reactRoot stale = rootRendered s !! reactRoot stale) ∧
       (∀ tl, pageTextLayer v p = Some tl →
          ∃ root,
            (∀ q hr, highlightRoots s !! q = Some hr → reactRoot hr ≠ root) ∧
            highlightRoots s' !! p =
              Some (mkHighlightRoot root
                      (findOrCreateContainerLayer (tl_div tl)
                         "PdfHighlighter__highlight-layer")) ∧
            rootRendered s' !! root = Some (highlightLayer v p s)) ∧
       (pageTextLayer v p = None →
          highlightRoots s' !! p = highlightRoots s !! p ∧
          pageContent s' p = pageContent s p)).
Proof.
  intros Hv Hwf Hp. exists (pagesSteps v (seq 1 numPages) s).
  split; [by apply renderHighlightLayers_eq|].
  destruct (pagesSteps_spec v (seq 1 numPages) (NoDup_seq _ _) s Hwf)
    as (_ & _ & _ & _ & Hpages).
  apply seq_pages in Hp. specialize (Hpages p Hp).
  unfold pageRendered in Hpages.
  destruct (connectedRoot s p) as [hr|]; [split; [by intros ? [= <-]|done]|].
  destruct Hpages as [Hstale Hpage]. split; [done|]. intros _.
  split; [done|].
  destruct (pageTextLayer v p) as [tl|]; split; try done.
  - intros ? [= <-]. destruct Hpage as (root & Hroot & Hreg & Hrend).
    exists root. split; [by apply wfRoots_fresh|done].
  - intros _. split; [done|]. unfold pageContent. rewrite Hpage.
    destruct (highlightRoots s !! p) as [hr|] eqn:Hhr; [|done]. by apply Hstale.
Qed.

Lemma wfRoots_renderHighlightLayers s :
  wfRoots s → wfRoots (stateOf (renderHighlightLayers s)).
Proof.
  intros Hwf. destruct (viewer s) as [v|] eqn:Hv.
  - rewrite (renderHighlightLayers_eq v s Hv).
    by apply (pagesSteps_spec v _ (NoDup_seq _ _) s Hwf).
  - unfold renderHighlightLayers. by rewrite forPages_no_viewer.
Qed.

Lemma pageContent_eq s p hr x :
  highlightRoots s !! p = Some hr → rootRendered s !! reactRoot hr = x →
  pageContent s p = x.
Proof. unfold pageContent. by intros -> ->. Qed.

(** After a run, a page that has a live root or a text layer shows its
    layer as computed from the state the run started in. *)
Lemma renderHighlightLayers_shows s v p :
  viewer s = Some v → wfRoots s → 1 ≤ p ≤ numPages →
  is_Some (connectedRoot s p) ∨ is_Some (pageTextLayer v p) →
  pageContent (stateOf (renderHighlightLayers s)) p = Some (highlightLayer v p s).
Proof.
  intros Hv Hwf Hp Hlive.
  rewrite (renderHighlightLayers_eq v s Hv). st_simpl.
  destruct (pagesSteps_spec v (seq 1 numPages) (NoDup_seq _ _) s Hwf)
    as (_ & _ & _ & _ & Hpages).
  apply seq_pages in Hp. specialize (Hpages p Hp).
  unfold pageRendered in Hpages.
  destruct (connectedRoot s p) as [hr|].
  - destruct Hpages as [Hreg Hrend]. by eapply pageContent_eq.
  - destruct Hlive as [[? ?]|[tl Htl]]; [done|]. rewrite Htl in Hpages.
    destruct Hpages as (_ & root & _ & Hreg & Hrend). by eapply pageContent_eq.
Qed.

(** C8.  Rendering the highlight layers twice in a row shows, on every
    page, exactly what rendering them once shows: the second run finds the
    highlights, the ghost highlight and the viewer unchanged and leaves the
    element rendered for each page as the first run left it. *)
Theorem renderHighlightLayers_idempotent (s : St) :
  wfRoots s →
  returns (renderHighlightLayers s) = true →
  let s1 := stateOf (renderHighlightLayers s) in
  let s2 := stateOf (renderHighlightLayers s1) in
  returns (renderHighlightLayers s1) = true ∧
  ∀ p, pageContent s2 p = pageContent s1 p.
Proof.
  intros Hwf Hret s1 s2. destruct (viewer s) as [v|] eqn:Hv.
  - assert (Hs1 : s1 = pagesSteps v (seq 1 numPages) s).
    { unfold s1. by rewrite (renderHighlightLayers_eq v s Hv). }
    assert (Hf : renderFrame s s1) by (rewrite Hs1; apply pagesSteps_frame).
    assert (Hv1 : viewer s1 = Some v) by by rewrite (renderFrame_viewer _ _ Hf).
    assert (Hs2 : s2 = pagesSteps v (seq 1 numPages) s1).
    { unfold s2. by rewrite (renderHighlightLayers_eq v s1 Hv1). }
    split; [by rewrite (renderHighlightLayers_eq v s1 Hv1)|].
    destruct (pagesSteps_spec v (seq 1 numPages) (NoDup_seq _ _) s Hwf)
      as (Hwf1 & _ & Hout & _ & Hpages).
    rewrite <- Hs1 in Hwf1, Hout, Hpages.
    destruct (pagesSteps_spec v (seq 1 numPages) (NoDup_seq _ _) s1 Hwf1)
      as (_ & _ & Hout' & Hrend' & Hpages').
    rewrite <- Hs2 in Hout', Hrend', Hpages'.
    intros p. destruct (decide (p ∈ seq 1 numPages)) as [Hp|Hp].
    + specialize (Hpages p Hp). specialize (Hpages' p Hp).
      assert (Hfirst : is_Some (connectedRoot s1 p) ∨ is_Some (pageTextLayer v p) →
                pageContent s1 p = Some (highlightLayer v p s)).
      { intros Hlive. unfold pageRendered in Hpages.
        destruct (connectedRoot s p) as [hr|] eqn:Hc.
        - destruct Hpages as [Hreg Hrend]. by eapply pageContent_eq.
        - destruct Hpages as [_ Hpage].
          destruct (pageTextLayer v p) as [tl|].
          + destruct Hpage as (root & _ & Hreg & Hrend). by eapply pageContent_eq.
          + rewrite (connectedRoot_frame s s1 p Hf Hpage), Hc in Hlive.
            destruct Hlive as [[? ?]|[? ?]]; done. }
      unfold pageRendered in Hpages'.
      rewrite (renderFrame_highlightLayer _ _ _ _ Hf) in Hpages'.
      destruct (connectedRoot s1 p) as [hr1|] eqn:Hc1.
      * rewrite Hfirst by eauto.
        destruct Hpages' as [Hreg Hrend]. by eapply pageContent_eq.
      * destruct Hpages' as [Hstale Hpage].
        destruct (pageTextLayer v p) as [tl|].
        -- rewrite Hfirst by eauto.
           destruct Hpage as (root & _ & Hreg & Hrend). by eapply pageContent_eq.
        -- unfold pageContent. rewrite Hpage.
           destruct (highlightRoots s1 !! p) as [hr|] eqn:Hhr; [|done].
           by apply Hstale.
    + unfold pageContent. rewrite (Hout' p Hp).
      destruct (highlightRoots s1 !! p) as [hr|] eqn:Hhr; [|done].
      destruct Hwf1 as [Hlt1 Hinj1]. apply Hrend'; [by eapply Hlt1|].
      intros q hr' Hq Hhr' Heq. apply connectedRoot_Some in Hhr' as [Hhr' _].
      apply Hp. by rewrite <- (Hinj1 _ _ _ _ Hhr' Hhr Heq).
  - assert (Hs1 : stateOf (renderHighlightLayers s) = s).
    { unfold renderHighlightLayers. by apply forPages_no_viewer. }
    subst s2 s1. by rewrite !Hs1.
Qed.

(** *** Invariants of handlers *)

Lemma invariant_ret {A} P (a : A) : invariant P (mret a).
Proof. by intros s Hs. Qed.

Lemma invariant_bind {A B} P (m : M A) (k : A → M B) :
  invariant P m → (∀ a, invariant P (k a)) → invariant P (m ≫= k).
Proof.
  intros Hm Hk s Hs. specialize (Hm s Hs). unfold mbind, M_bind.
  destruct (m s) as [a s1|e s1]; simpl in *; [by apply Hk|done].
Qed.

Lemma invariant_modify P f : (∀ s, P s → P (f s)) → invariant P (modify f).
Proof. intros Hf s Hs. by apply Hf. Qed.

Lemma invariant_get P : invariant P get.
Proof. by intros s Hs. Qed.

Lemma invariant_gets {A} P (f : St → A) : invariant P (gets f).
Proof. by intros s Hs. Qed.

Lemma invariant_throw {A} P e : invariant P (throw (A:=A) e).
Proof. by intros s Hs. Qed.

Lemma invariant_viewerRef_current P : invariant P viewerRef_current.
Proof. intros s Hs. unfold viewerRef_current. by destruct (viewer s). Qed.

Lemma invariant_renderHighlightLayers P :
  frameStable P → invariant P renderHighlightLayers.
Proof. intros HP s Hs. eapply HP; [apply renderHighlightLayers_frame|done]. Qed.

Lemma invariant_wfRoots_renderHighlightLayers :
  invariant wfRoots renderHighlightLayers.
Proof. intros s. apply wfRoots_renderHighlightLayers. Qed.

End Proofs.

Ltac inv_auto :=
  repeat lazymatch goal with
  | |- invariant _ (mret _) => apply invariant_ret
  | |- invariant _ (mbind _ _) => apply invariant_bind; [|intros ?]
  | |- invariant _ (modify _) =>
      apply invariant_modify; let s := fresh "s" in intros s ?; by destruct s
  | |- invariant _ get => apply invariant_get
  | |- invariant _ (gets _) => apply invariant_gets
  | |- invariant _ (throw _) => apply invariant_throw
  | |- invariant _ viewerRef_current => apply invariant_viewerRef_current
  | |- invariant _ renderHighlightLayers =>
      first [ apply invariant_wfRoots_renderHighlightLayers
            | apply invariant_renderHighlightLayers;
              unfold frameStable, renderFrame; intros ? ? -> ?; by st_simpl ]
  | |- invariant _ (match ?x with _ => _ end) => destruct x
  | |- invariant _ (emit _) => unfold emit
  | |- invariant _ (setTimeout _ _) => unfold setTimeout
  | |- invariant _ (runTimerCallback _) => unfold runTimerCallback
  | |- invariant _ debouncedAfterSelection => unfold debouncedAfterSelection
  | |- invariant _ (call_onSelectionFinished _ _ _ _) =>
      unfold call_onSelectionFinished
  | |- invariant _ hideTipAndGhostHighlight => unfold hideTipAndGhostHighlight
  | |- invariant _ (showTip _) => unfold showTip
  | |- invariant _ (scrollTo _) => unfold scrollTo; cbv zeta
  | |- invariant _ (onSelectionChange _) => unfold onSelectionChange; cbv zeta
  | |- invariant _ onScroll => unfold onScroll
  | |- invariant _ (onMouseDown _) => unfold onMouseDown
  | |- invariant _ (handleKeyDown _) => unfold handleKeyDown
  | |- invariant _ afterSelection => unfold afterSelection; cbv zeta
  | |- invariant _ (afterAreaSelection _ _ _) => unfold afterAreaSelection
  | |- invariant _ (runContinuation _) => unfold runContinuation
  end.

Section Lifetime.
Context `{lib : Lib} `{props : Props}.

(** The registry invariant holds in every state the component reaches. *)
Lemma handle_wfRoots e : invariant wfRoots (handle e).
Proof. destruct e; unfold handle; inv_auto. Qed.

Lemma run_wfRoots es s : wfRoots s → wfRoots (run es s).
Proof.
  revert s. induction es as [|e es IH]; intros s Hwf; simpl; [done|].
  by apply IH, handle_wfRoots.
Qed.

(** *** Dismissing and committing a selection *)

Lemma renderHighlightLayers_fields s :
  let s' := stateOf (renderHighlightLayers s) in
  tip s' = tip s ∧ tipPosition s' = tipPosition s ∧
  tipChildren s' = tipChildren s ∧ ghostHighlight s' = ghostHighlight s ∧
  scrolledToHighlightId s' = scrolledToHighlightId s ∧
  scrollListener s' = scrollListener s ∧ timers s' = timers s ∧
  effects s' = effects s ∧ viewer s' = viewer s.
Proof.
  intros s'. pose proof (renderHighlightLayers_frame s) as Hf.
  unfold renderFrame in Hf. fold s' in Hf. rewrite Hf. by st_simpl.
Qed.

Lemma hideTipAndGhostHighlight_state s :
  stateOf (hideTipAndGhostHighlight s) =
  stateOf (renderHighlightLayers
             (set_tip None (set_ghostHighlight None
                (set_tipChildren None (set_tipPosition None s))))).
Proof. reflexivity. Qed.

Lemma hideTipAndGhostHighlight_clears s :
  let s' := stateOf (hideTipAndGhostHighlight s) in
  tipPosition s' = None ∧ tipChildren s' = None ∧ ghostHighlight s' = None.
Proof.
  intros s'. unfold s'. rewrite hideTipAndGhostHighlight_state.
  destruct (renderHighlightLayers_fields
              (set_tip None (set_ghostHighlight None
                 (set_tipChildren None (set_tipPosition None s)))))
    as (_ & -> & -> & -> & _).
  done.
Qed.

(** A pointer-down on an HTML element outside the tip container discards
    the pending selection. *)
Lemma onMouseDown_discards target s :
  isHTMLElement target = true →
  closest target ".PdfHighlighter__tip-container" = None →
  onMouseDown target s = hideTipAndGhostHighlight s.
Proof. intros Hhtml Hout. unfold onMouseDown. by rewrite Hhtml, Hout. Qed.

Lemma handleKeyDown_fields code s :
  let s' := stateOf (handleKeyDown code s) in
  tip s' = tip s ∧ tipPosition s' = tipPosition s ∧
  tipChildren s' = tipChildren s ∧ ghostHighlight s' = ghostHighlight s.
Proof.
  intros s'. unfold s', handleKeyDown. destruct (String.eqb code "Escape"); [|done].
  unfold_m.
  destruct (renderHighlightLayers_fields
              (set_effects (effects s ++ [ConsoleLog "Escape!"]) s))
    as (-> & -> & -> & -> & _).
  done.
Qed.

Lemma runContinuation_commit_state content position s :
  stateOf (runContinuation (TransformSelection content position) s) =
  stateOf (renderHighlightLayers
             (set_ghostHighlight (Some (mkGhostHighlight content position)) s)).
Proof. reflexivity. Qed.

(** What an event does to the ghost highlight. *)
Lemma handle_ghostHighlight e s :
  ghostHighlight (stateOf (handle e s)) =
  match committed e with
  | Some g => Some g
  | None => if dismisses e then None else ghostHighlight s
  end.
Proof.
  assert (Hkeep : ∀ m : M unit,
            invariant (λ s', ghostHighlight s' = ghostHighlight s) m →
            ghostHighlight (stateOf (m s)) = ghostHighlight s).
  { intros m Hm. by apply Hm. }
  destruct e as [sel| |target|code| | |h|k|t|t|b|vp sp image|hs|];
    cbn [committed dismisses handle];
    try (apply Hkeep; inv_auto; done).
  - unfold onMouseDown.
    destruct (negb (isHTMLElement target) || _); cbn [negb]; [done|].
    apply hideTipAndGhostHighlight_clears.
  - destruct k as [|content position|position image]; cbn [runContinuation].
    + apply hideTipAndGhostHighlight_clears.
    + unfold_m.
      by destruct (renderHighlightLayers_fields
                     (set_ghostHighlight
                        (Some (mkGhostHighlight content position)) s))
        as (_ & _ & _ & -> & _).
    + unfold_m.
      by destruct (renderHighlightLayers_fields
                     (set_effects (effects s ++ [CallResetSelection])
                        (set_ghostHighlight
                           (Some (mkGhostHighlight (mkContent None (Some image))
                                    position)) s)))
        as (_ & _ & _ & -> & _).
Qed.

Lemma run_app es1 es2 s : run (es1 ++ es2) s = run es2 (run es1 s).
Proof. revert s. induction es1 as [|e es1 IH]; intros s; simpl; [done|apply IH]. Qed.

(** A ghost highlight that exists was committed by an event after which
    nothing dismissed or replaced it. *)
Lemma ghostHighlight_lifetime es s g :
  ghostHighlight s = None →
  ghostHighlight (run es s) = Some g →
  ∃ es1 e es2, es = es1 ++ e :: es2 ∧ committed e = Some g ∧
    Forall (λ e', dismisses e' = false ∧ committed e' = None) es2.
Proof.
  intros Hnone. induction es as [|e es IH] using rev_ind; simpl.
  { intros Hg. congruence. }
  rewrite run_app. simpl. rewrite handle_ghostHighlight.
  destruct (committed e) as [g'|] eqn:Hcommit.
  - intros [= ->]. exists es, e, []. by rewrite Forall_nil.
  - destruct (dismisses e) eqn:Hdismiss; [done|].
    intros Hg. destruct (IH Hg) as (es1 & e0 & es2 & -> & Hc & Hall).
    exists es1, e0, (es2 ++ [e]). split; [by rewrite <- app_assoc|].
    split; [done|]. apply Forall_app. split; [done|].
    by apply Forall_singleton.
Qed.

Lemma afterSelection_finished s r pages :
  range s = Some r → isCollapsed s = false →
  getPagesFromRange r = Some pages → pages ≠ [] →
  getClientRects r pages ≠ [] →
  let rects := getClientRects r pages in
  let viewportPosition := mkViewportPosition (getBoundingRect rects) rects in
  let content := mkContent (Some (range_toString r)) None in
  let scaledPosition := viewportPositionToScaled viewportPosition (viewer s) in
  afterSelection s =
  Returned tt
    (set_tipChildren
       (onSelectionFinished scaledPosition content HideTipAndGhostHighlight
          (TransformSelection content scaledPosition))
       (set_effects
          (effects s ++
             [CallOnSelectionFinished scaledPosition content
                HideTipAndGhostHighlight
                (TransformSelection content scaledPosition)])
          (set_tipPosition (Some viewportPosition) s))).
Proof.
  intros Hr Hc Hp Hne Hrects. cbv zeta.
  unfold afterSelection, call_onSelectionFinished. unfold_m.
  rewrite Hr, Hc, Hp. destruct pages as [|pg pages']; [done|].
  rewrite bool_decide_eq_false_2; [done|].
  intros Hlen. by apply length_zero_iff_nil in Hlen.
Qed.

(** C4.  When a text selection is finalized, [onSelectionFinished] is
    called exactly once, with the scaled position, the text content and two
    continuations.  Running the first clears the tip and the ghost
    highlight.  Running the second stores a ghost highlight made of exactly
    that content and scaled position and renders the highlight layers
    again, so that every page with a live root or a text layer shows it.
    Over any sequence of events, a ghost highlight exists only if an event
    committed it and no later event dismissed it. *)
Theorem selection_finished_contract (s : St) (r : Range) (pages : list Page) :
  range s = Some r → isCollapsed s = false →
  getPagesFromRange r = Some pages → pages ≠ [] →
  getClientRects r pages ≠ [] →
  let rects := getClientRects r pages in
  let viewportPosition := mkViewportPosition (getBoundingRect rects) rects in
  let content := mkContent (Some (range_toString r)) None in
  let scaledPosition := viewportPositionToScaled viewportPosition (viewer s) in
  let dismiss := HideTipAndGhostHighlight in
  let commit := TransformSelection content scaledPosition in
  let ghost := mkGhostHighlight content scaledPosition in
  (∃ s', afterSelection s = Returned tt s' ∧
     effects s' =
       effects s ++ [CallOnSelectionFinished scaledPosition content dismiss commit] ∧
     tipPosition s' = Some viewportPosition ∧
     tipChildren s' = onSelectionFinished scaledPosition content dismiss commit) ∧
  (∀ s0, let s1 := stateOf (runContinuation dismiss s0) in
     tipPosition s1 = None ∧ tipChildren s1 = None ∧ ghostHighlight s1 = None) ∧
  (∀ s0, let s1 := stateOf (runContinuation commit s0) in
     ghostHighlight s1 = Some ghost ∧
     s1 = stateOf (renderHighlightLayers (set_ghostHighlight (Some ghost) s0)) ∧
     ∀ v p, viewer s0 = Some v → wfRoots s0 → 1 ≤ p ≤ numPages →
       is_Some (connectedRoot s0 p) ∨ is_Some (pageTextLayer v p) →
       pageContent s1 p =
         Some (highlightLayer v p (set_ghostHighlight (Some ghost) s0))) ∧
  (∀ s0 es g, ghostHighlight s0 = None →
     ghostHighlight (run es s0) = Some g →
     ∃ es1 e es2, es = es1 ++ e :: es2 ∧ committed e = Some g ∧
       Forall (λ e', dismisses e' = false ∧ committed e' = None) es2).
Proof.
  intros Hr Hc Hp Hne Hrects. cbv zeta. split_and!.
  - eexists. split; [by apply afterSelection_finished|]. by st_simpl.
  - intros s0. apply hideTipAndGhostHighlight_clears.
  - intros s0. rewrite runContinuation_commit_state. split_and!.
    + by destruct (renderHighlightLayers_fields
                     (set_ghostHighlight
                        (Some (mkGhostHighlight
                                 (mkContent (Some (range_toString r)) None)
                                 (viewportPositionToScaled
                                    (mkViewportPosition
                                       (getBoundingRect (getClientRects r pages))
                                       (getClientRects r pages)) (viewer s)))) s0))
        as (_ & _ & _ & -> & _).
    + done.
    + intros v p Hv Hwf Hpage Hlive. by apply renderHighlightLayers_shows.
  - intros s0 es g. apply ghostHighlight_lifetime.
Qed.

(** *** Scrolling to a highlight *)

Lemma onScroll_state s :
  stateOf (onScroll s) =
  stateOf (renderHighlightLayers
             (set_scrolledToHighlightId None
                (set_effects (effects s ++ [CallOnScrollChange]) s))).
Proof. reflexivity. Qed.

Lemma onScroll_resets s : scrolledToHighlightId (stateOf (onScroll s)) = None.
Proof.
  rewrite onScroll_state.
  by destruct (renderHighlightLayers_fields
                 (set_scrolledToHighlightId None
                    (set_effects (effects s ++ [CallOnScrollChange]) s)))
    as (_ & _ & _ & _ & -> & _).
Qed.

Lemma scrollTo_state s v pageView h :
  let page := s_pageNumber (sp_boundingRect (h_position h)) in
  viewer s = Some v →
  getPageView v (Z.of_nat page - 1) = Some pageView →
  ∃ s', scrollTo h s = Returned tt s' ∧
    scrolledToHighlightId s' = Some (h_id h) ∧
    scrollListener s' = false ∧
    viewer s' = Some v ∧
    timers s' = timers s ++ [(AddScrollListener, 100)] ∧
    effects s' =
      effects s ++ [CallRemoveScrollListener;
                    CallScrollPageIntoView page (scrollDest h pageView);
                    CallSetTimeout AddScrollListener 100].
Proof.
  intros page Hv Hpage. unfold scrollTo, setTimeout, viewerRef_current.
  cbv zeta. fold page. unfold_m. rewrite Hv. unfold_m. rewrite Hv.
  unfold_m. rewrite Hpage. unfold_m. rewrite Hv. unfold_m.
  fold (scrollDest h pageView).
  set (s1 := set_scrolledToHighlightId _ _).
  assert (Hv1 : viewer s1 = Some v) by done.
  rewrite (renderHighlightLayers_eq v s1 Hv1). unfold_m.
  eexists. split; [reflexivity|].
  pose proof (pagesSteps_frame v (seq 1 numPages) s1) as Hf.
  unfold renderFrame in Hf. rewrite Hf. st_simpl.
  subst s1. st_simpl. split_and!; [done..|].
  by rewrite <- !app_assoc.
Qed.

Lemma scroll_ignored_while_detached n s :
  scrollListener s = false → run (replicate n EvScroll) s = s.
Proof.
  intros Hoff. induction n as [|n IH]; simpl; [done|].
  unfold_m. rewrite Hoff. simpl. apply IH.
Qed.

(** C10.  Every scroll event that [onScroll] handles resets the
    scrolled-to-highlight id to null and renders the highlight layers again.
    [scrollTo] detaches the scroll listener, then scrolls, sets the id to
    the target highlight's id, renders, and sets a timeout of 100 ms that
    attaches the listener again: scroll events before that timeout runs are
    not handled and leave the id in place, and the first scroll event after
    it resets the id. *)
Theorem scrolledToHighlightId_lifetime
    (s : St) (v : PDFViewer) (pageView : PDFPageView) (h : Highlight) :
  let page := s_pageNumber (sp_boundingRect (h_position h)) in
  viewer s = Some v →
  getPageView v (Z.of_nat page - 1) = Some pageView →
  (∀ s0,
     scrolledToHighlightId (stateOf (onScroll s0)) = None ∧
     stateOf (onScroll s0) =
       stateOf (renderHighlightLayers
                  (set_scrolledToHighlightId None
                     (set_effects (effects s0 ++ [CallOnScrollChange]) s0)))) ∧
  ∃ s', scrollTo h s = Returned tt s' ∧
    scrolledToHighlightId s' = Some (h_id h) ∧
    scrollListener s' = false ∧
    timers s' = timers s ++ [(AddScrollListener, 100)] ∧
    effects s' =
      effects s ++ [CallRemoveScrollListener;
                    CallScrollPageIntoView page (scrollDest h pageView);
                    CallSetTimeout AddScrollListener 100] ∧
    (∀ n, run (replicate n EvScroll) s' = s') ∧
    (timers s = [] →
       let s'' := run [EvTimeout] s' in
       scrollListener s'' = true ∧
       scrolledToHighlightId s'' = Some (h_id h) ∧
       scrolledToHighlightId (run [EvScroll] s'') = None).
Proof.
  intros page Hv Hpage. split.
  { intros s0. split; [apply onScroll_resets|apply onScroll_state]. }
  destruct (scrollTo_state s v pageView h Hv Hpage)
    as (s' & Hrun & Hid & Hoff & Hv' & Htimers & Heffects).
  exists s'. split_and!; try done.
  - intros n. by apply scroll_ignored_while_detached.
  - intros Hnone. rewrite Hnone in Htimers. simpl in Htimers. simpl.
    unfold runTimerCallback, viewerRef_current. unfold_m.
    rewrite Htimers. unfold_m. rewrite Hv'. unfold_m.
    split_and!; [done..|]. apply onScroll_resets.
Qed.

(** *** The bounding rectangle of a selection *)

Lemma foldr_Qmin_le_init {A} (f : A → Q) x l :
  (foldr (λ a acc, Qmin (f a) acc) x l <= x)%Q.
Proof.
  induction l as [|a l IH]; simpl; [apply Qle_refl|].
  eapply Qle_trans; [apply Q.le_min_r|exact IH].
Qed.

Lemma foldr_Qmin_le_elem {A} (f : A → Q) x l a :
  a ∈ l → (foldr (λ a acc, Qmin (f a) acc) x l <= f a)%Q.
Proof.
  induction l as [|b l IH]; simpl; intros Ha.
  - by apply elem_of_nil in Ha.
  - apply elem_of_cons in Ha as [->|Ha]; [apply Q.le_min_l|].
    eapply Qle_trans; [apply Q.le_min_r|by apply IH].
Qed.

Lemma foldr_Qmax_ge_init {A} (f : A → Q) x l :
  (x <= foldr (λ a acc, Qmax (f a) acc) x l)%Q.
Proof.
  induction l as [|a l IH]; simpl; [apply Qle_refl|].
  eapply Qle_trans; [exact IH|apply Q.le_max_r].
Qed.

Lemma foldr_Qmax_ge_elem {A} (f : A → Q) x l a :
  a ∈ l → (f a <= foldr (λ a acc, Qmax (f a) acc) x l)%Q.
Proof.
  induction l as [|b l IH]; simpl; intros Ha.
  - by apply elem_of_nil in Ha.
  - apply elem_of_cons in Ha as [->|Ha]; [apply Q.le_max_l|].
    eapply Qle_trans; [by apply IH|apply Q.le_max_r].
Qed.

Lemma foldr_Qmin_glb {A} (f : A → Q) x l (b : Q) :
  (b <= x)%Q → (∀ a, a ∈ l → (b <= f a)%Q) →
  (b <= foldr (λ a acc, Qmin (f a) acc) x l)%Q.
Proof.
  intros Hx. induction l as [|a l IH]; simpl; intros Hl; [done|].
  apply Q.min_glb; [apply Hl; left|]. apply IH. intros a' Ha'. apply Hl. by right.
Qed.

Lemma foldr_Qmax_lub {A} (f : A → Q) x l (b : Q) :
  (x <= b)%Q → (∀ a, a ∈ l → (f a <= b)%Q) →
  (foldr (λ a acc, Qmax (f a) acc) x l <= b)%Q.
Proof.
  intros Hx. induction l as [|a l IH]; simpl; intros Hl; [done|].
  apply Q.max_lub; [apply Hl; left|]. apply IH. intros a' Ha'. apply Hl. by right.
Qed.

Lemma getBoundingRect_left r0 rs :
  r_left (getBoundingRect (r0 :: rs)) =
  foldr (λ r' acc, Qmin (r_left r') acc) (r_left r0) rs.
Proof. reflexivity. Qed.

Lemma getBoundingRect_top r0 rs :
  r_top (getBoundingRect (r0 :: rs)) =
  foldr (λ r' acc, Qmin (r_top r') acc) (r_top r0) rs.
Proof. reflexivity. Qed.

Lemma getBoundingRect_right r0 rs :
  (r_right (getBoundingRect (r0 :: rs)) ==
   foldr (λ r' acc, Qmax (r_right r') acc) (r_right r0) rs)%Q.
Proof. unfold r_right at 1. cbn [getBoundingRect r_left r_width]. ring. Qed.

Lemma getBoundingRect_bottom r0 rs :
  (r_bottom (getBoundingRect (r0 :: rs)) ==
   foldr (λ r' acc, Qmax (r_bottom r') acc) (r_bottom r0) rs)%Q.
Proof. unfold r_bottom at 1. cbn [getBoundingRect r_top r_height]. ring. Qed.

Lemma getBoundingRect_covers rects r :
  r ∈ rects → covers (getBoundingRect rects) r.
Proof.
  destruct rects as [|r0 rs]; intros Hr; [by apply elem_of_nil in Hr|].
  unfold covers.
  rewrite getBoundingRect_left, getBoundingRect_top,
    getBoundingRect_right, getBoundingRect_bottom.
  apply elem_of_cons in Hr as [->|Hr]; split_and!;
    first [ apply foldr_Qmin_le_init | apply foldr_Qmax_ge_init
          | by apply foldr_Qmin_le_elem | by apply foldr_Qmax_ge_elem ].
Qed.

Lemma getBoundingRect_least rects b :
  rects ≠ [] → (∀ r, r ∈ rects → covers b r) →
  covers b (getBoundingRect rects).
Proof.
  destruct rects as [|r0 rs]; intros Hne Hb; [done|].
  assert (H0 : covers b r0) by (apply Hb; left).
  assert (Hs : ∀ r, r ∈ rs → covers b r) by (intros r Hr; apply Hb; by right).
  unfold covers.
  rewrite getBoundingRect_left, getBoundingRect_top,
    getBoundingRect_right, getBoundingRect_bottom.
  unfold covers in H0, Hs.
  split_and!.
  - apply foldr_Qmin_glb; [tauto|]. intros r Hr. by apply Hs.
  - apply foldr_Qmin_glb; [tauto|]. intros r Hr. by apply Hs.
  - apply foldr_Qmax_lub; [tauto|]. intros r Hr. by apply Hs.
  - apply foldr_Qmax_lub; [tauto|]. intros r Hr. by apply Hs.
Qed.

(** C7.  A finalized selection, whatever the number of client rectangles
    it is made of, yields a viewport position with one bounding rectangle:
    the minimum of the left and top and the maximum of the right and bottom
    edges of its rectangles, hence a rectangle that covers each of them and
    that every rectangle covering them all covers too.  The scaled position
    handed to the caller is computed from that viewport position, that is,
    after the reduction. *)
Theorem selection_bounding_rect (s : St) (r : Range) (pages : list Page) :
  range s = Some r → isCollapsed s = false →
  getPagesFromRange r = Some pages → pages ≠ [] →
  getClientRects r pages ≠ [] →
  let rects := getClientRects r pages in
  let boundingRect := getBoundingRect rects in
  let viewportPosition := mkViewportPosition boundingRect rects in
  (∀ r', r' ∈ rects → covers boundingRect r') ∧
  (∀ b, (∀ r', r' ∈ rects → covers b r') → covers b boundingRect) ∧
  ∃ s' content hide transform,
    afterSelection s = Returned tt s' ∧
    tipPosition s' = Some viewportPosition ∧
    effects s' =
      effects s ++
        [CallOnSelectionFinished
           (viewportPositionToScaled viewportPosition (viewer s))
           content hide transform].
Proof.
  intros Hr Hc Hp Hne Hrects. cbv zeta. split_and!.
  - intros r'. apply getBoundingRect_covers.
  - intros b. by apply getBoundingRect_least.
  - do 4 eexists. split; [by apply afterSelection_finished|]. by st_simpl.
Qed.

End Lifetime.

(** ** Further properties of the handlers *)

Section Further.
Context `{lib : Lib} `{props : Props}.

(** *** When rendering throws *)

Lemma renderHighlightLayers_page_no_viewer_eq p s :
  viewer s = None →
  renderHighlightLayers_page p s =
  match connectedRoot s p with
  | Some _ => Returned tt s
  | None => Thrown TypeError s
  end.
Proof.
  intros Hv.
  unfold renderHighlightLayers_page, connectedRoot, renderHighlightLayer,
    root_render, findOrCreateHighlightLayer, viewerRef_current.
  unfold_m.
  destruct (highlightRoots s !! p) as [hr|]; unfold_m;
    [destruct (isConnected (container hr) s)|]; unfold_m; rewrite ?Hv; unfold_m;
    reflexivity.
Qed.

Lemma forPages_no_viewer_returns ps s :
  viewer s = None →
  returns (forPages renderHighlightLayers_page ps s) = true ↔
  ∀ p, p ∈ ps → is_Some (connectedRoot s p).
Proof.
  intros Hv. induction ps as [|p ps IH]; simpl.
  { split; [|done]. intros _ p Hp. by apply elem_of_nil in Hp. }
  unfold mbind, M_bind. rewrite (renderHighlightLayers_page_no_viewer_eq p s Hv).
  destruct (connectedRoot s p) as [hr|] eqn:Hc.
  - rewrite IH. split.
    + intros Hall q Hq. apply elem_of_cons in Hq as [->|Hq]; [by rewrite Hc|auto].
    + intros Hall q Hq. apply Hall. by right.
  - simpl. split; [done|]. intros Hall.
    destruct (Hall p) as [? Hp]; [left|]. by rewrite Hc in Hp.
Qed.

(** X1.  [renderHighlightLayers] returns normally exactly when the viewer
    exists or every page of the document has a root whose container is
    attached; otherwise it throws, from [findOrCreateHighlightLayer]
    dereferencing the null viewer.  Without a viewer nothing is rendered and
    the state is left as it was, whether it throws or not. *)
Theorem renderHighlightLayers_returns_iff (s : St) :
  (returns (renderHighlightLayers s) = true ↔
     is_Some (viewer s) ∨ ∀ p, 1 ≤ p ≤ numPages → is_Some (connectedRoot s p)) ∧
  (viewer s = None → stateOf (renderHighlightLayers s) = s).
Proof.
  split.
  - destruct (viewer s) as [v|] eqn:Hv.
    + rewrite (renderHighlightLayers_eq v s Hv). split; [by left; eexists|done].
    + unfold renderHighlightLayers. rewrite forPages_no_viewer_returns by done.
      split.
      * intros Hall. right. intros p Hp. by apply Hall, seq_pages.
      * intros [[? ?]|Hall]; [done|]. intros p Hp. by apply Hall, seq_pages.
  - intros Hv. unfold renderHighlightLayers. by apply forPages_no_viewer.
Qed.

(** *** What rendering leaves alone *)

Lemma pageStep_roots_mono v p q s :
  is_Some (highlightRoots s !! q) → is_Some (highlightRoots (pageStep v p s) !! q).
Proof.
  intros Hq. unfold pageStep.
  destruct (connectedRoot s p); [done|].
  destruct (pageTextLayer v p); [|done]. st_simpl.
  destruct (decide (q = p)) as [->|Hne];
    [rewrite lookup_insert_eq; by eexists|by rewrite lookup_insert_ne].
Qed.

Lemma pagesSteps_roots v ps s :
  nextRootId s ≤ nextRootId (pagesSteps v ps s) ∧
  (∀ q, q ∉ ps →
     highlightRoots (pagesSteps v ps s) !! q = highlightRoots s !! q) ∧
  (∀ q, is_Some (highlightRoots s !! q) →
     is_Some (highlightRoots (pagesSteps v ps s) !! q)).
Proof.
  revert s. induction ps as [|p ps IH]; intros s; simpl; [done|].
  destruct (IH (pageStep v p s)) as (Hn & Hout & Hmono).
  pose proof (pageStep_nextRootId v p s). split_and!.
  - lia.
  - intros q Hq. apply not_elem_of_cons in Hq as [Hqp Hq].
    rewrite Hout by done. by apply pageStep_roots_ne.
  - intros q Hq. by apply Hmono, pageStep_roots_mono.
Qed.

(** X2.  [renderHighlightLayers] touches nothing but the root registry and
    the roots: highlights, ghost highlight, selection, tip, scroll state,
    timers and the calls made so far are as before.  In the registry it
    never removes a page's entry and it leaves pages beyond [numPages] (and
    page 0) alone; the counter of created roots never goes back. *)
Theorem renderHighlightLayers_touches_only_roots (s : St) :
  let s' := stateOf (renderHighlightLayers s) in
  s' = set_highlightRoots (highlightRoots s')
         (set_rootRendered (rootRendered s') (set_nextRootId (nextRootId s') s)) ∧
  nextRootId s ≤ nextRootId s' ∧
  (∀ p, ¬ (1 ≤ p ≤ numPages) → highlightRoots s' !! p = highlightRoots s !! p) ∧
  (∀ p, is_Some (highlightRoots s !! p) → is_Some (highlightRoots s' !! p)).
Proof.
  intros s'. split; [apply renderHighlightLayers_frame|].
  unfold s'. destruct (viewer s) as [v|] eqn:Hv.
  - rewrite (renderHighlightLayers_eq v s Hv). st_simpl.
    destruct (pagesSteps_roots v (seq 1 numPages) s) as (Hn & Hout & Hmono).
    split_and!; [done| |done].
    intros p Hp. apply Hout. by rewrite <- seq_pages.
  - unfold renderHighlightLayers. by rewrite forPages_no_viewer.
Qed.

(** *** Invariants of the registry *)

Lemma pageStep_consistent v p s :
  wfRoots s → rootsConsistent s → rootsConsistent (pageStep v p s).
Proof.
  intros [Hlt Hinj] Hcons. unfold rootsConsistent in *.
  rewrite map_Forall_lookup in Hcons. apply map_Forall_lookup.
  unfold pageStep.
  destruct (connectedRoot s p) as [hr|] eqn:Hc.
  - apply connectedRoot_Some in Hc as [Hp _]. st_simpl.
    intros q hrq Hq. destruct (decide (reactRoot hrq = reactRoot hr)) as [Heq|Hne].
    + rewrite Heq, lookup_insert_eq. simpl. symmetry. by eapply Hinj.
    + rewrite lookup_insert_ne by done. by apply Hcons.
  - destruct (pageTextLayer v p) as [tl|]; [|done]. st_simpl.
    intros q hrq Hq. destruct (decide (q = p)) as [->|Hne].
    + rewrite lookup_insert_eq in Hq. injection Hq as <-. simpl.
      by rewrite lookup_insert_eq.
    + rewrite lookup_insert_ne in Hq by done.
      rewrite lookup_insert_ne; [by apply Hcons|].
      apply Hlt in Hq. lia.
Qed.

Lemma pagesSteps_consistent v ps s :
  wfRoots s → rootsConsistent s →
  wfRoots (pagesSteps v ps s) ∧ rootsConsistent (pagesSteps v ps s).
Proof.
  revert s. induction ps as [|p ps IH]; intros s Hwf Hcons; simpl; [done|].
  apply IH; [by apply pageStep_wf|by apply pageStep_consistent].
Qed.

Lemma invariant_registry_renderHighlightLayers :
  invariant (λ s, wfRoots s ∧ rootsConsistent s) renderHighlightLayers.
Proof.
  intros s [Hwf Hcons]. destruct (viewer s) as [v|] eqn:Hv.
  - rewrite (renderHighlightLayers_eq v s Hv). by apply pagesSteps_consistent.
  - unfold renderHighlightLayers. by rewrite forPages_no_viewer.
Qed.

End Further.

(** The traversal of a handler body, with the treatment of a state update
    and of a rendering left to the caller. *)
Ltac inv_gen tac_modify tac_render :=
  repeat lazymatch goal with
  | |- invariant _ (mret _) => apply invariant_ret
  | |- invariant _ (mbind _ _) => apply invariant_bind; [|intros ?]
  | |- invariant _ (modify _) => apply invariant_modify; tac_modify
  | |- invariant _ get => apply invariant_get
  | |- invariant _ (gets _) => apply invariant_gets
  | |- invariant _ (throw _) => apply invariant_throw
  | |- invariant _ viewerRef_current => apply invariant_viewerRef_current
  | |- invariant _ renderHighlightLayers => tac_render
  | |- invariant _ (match ?x with _ => _ end) => destruct x
  | |- invariant _ (emit _) => unfold emit
  | |- invariant _ (setTimeout _ _) => unfold setTimeout
  | |- invariant _ (runTimerCallback _) => unfold runTimerCallback
  | |- invariant _ debouncedAfterSelection => unfold debouncedAfterSelection
  | |- invariant _ (call_onSelectionFinished _ _ _ _) =>
      unfold call_onSelectionFinished
  | |- invariant _ hideTipAndGhostHighlight => unfold hideTipAndGhostHighlight
  | |- invariant _ (showTip _) => unfold showTip
  | |- invariant _ (scrollTo _) => unfold scrollTo; cbv zeta
  | |- invariant _ (onSelectionChange _) => unfold onSelectionChange; cbv zeta
  | |- invariant _ onScroll => unfold onScroll
  | |- invariant _ (onMouseDown _) => unfold onMouseDown
  | |- invariant _ (handleKeyDown _) => unfold handleKeyDown
  | |- invariant _ afterSelection => unfold afterSelection; cbv zeta
  | |- invariant _ (afterAreaSelection _ _ _) => unfold afterAreaSelection
  | |- invariant _ (runContinuation _) => unfold runContinuation
  end.

Section Traces.
Context `{lib : Lib} `{props : Props}.

Lemma handle_registry e :
  invariant (λ s, wfRoots s ∧ rootsConsistent s) (handle e).
Proof.
  destruct e; unfold handle;
    inv_gen ltac:(intros [] ?; done)
            ltac:(apply invariant_registry_renderHighlightLayers).
Qed.

(** X3.  In every state the component reaches from a state with a
    well-formed registry, the registry is well formed (every registered
    root was created by [createRoot], no two pages share a root) and the
    element a page's root renders is the layer of that very page. *)
Theorem registry_invariants (es : list Event) (s : St) :
  wfRoots s → rootsConsistent s →
  wfRoots (run es s) ∧ rootsConsistent (run es s) ∧
  ∀ p el, pageContent (run es s) p = Some el → le_pageNumber el = p.
Proof.
  intros Hwf Hcons.
  assert (Hinv : wfRoots (run es s) ∧ rootsConsistent (run es s)).
  { revert s Hwf Hcons. induction es as [|e es IH]; intros s Hwf Hcons; simpl;
      [done|].
    by apply IH; apply (handle_registry e s). }
  destruct Hinv as [Hwf' Hcons']. split_and!; [done..|].
  intros p el. unfold pageContent.
  destruct (highlightRoots (run es s) !! p) as [hr|] eqn:Hp; [|done].
  intros Hel. unfold rootsConsistent in Hcons'.
  rewrite map_Forall_lookup in Hcons'. specialize (Hcons' p hr Hp).
  by rewrite Hel in Hcons'.
Qed.

(** *** Scrolling *)

(** X4.  When the page of the highlight has no page view (a page number
    outside the document, or 0), [scrollTo] throws, and it does so after it
    has removed the scroll listener: the listener stays detached, no timeout
    is set that would attach it again, the scrolled-to id is not set and
    later scroll events are not handled.  Without a viewer [scrollTo] throws
    before it does anything. *)
Theorem scrollTo_without_page_view (h : Highlight) (s : St) (v : PDFViewer) :
  let page := s_pageNumber (sp_boundingRect (h_position h)) in
  viewer s = Some v →
  getPageView v (Z.of_nat page - 1) = None →
  let s' := set_effects (effects s ++ [CallRemoveScrollListener])
              (set_scrollListener false s) in
  scrollTo h s = Thrown TypeError s' ∧
  timers s' = timers s ∧
  scrolledToHighlightId s' = scrolledToHighlightId s ∧
  (∀ n, run (replicate n EvScroll) s' = s') ∧
  (∀ s0, viewer s0 = None → scrollTo h s0 = Thrown TypeError s0).
Proof.
  intros page Hv Hpage s'. split_and!; [|done|done| |].
  - unfold scrollTo, viewerRef_current. cbv zeta. fold page. unfold_m.
    rewrite Hv. unfold_m. rewrite Hv. unfold_m. by rewrite Hpage.
  - intros n. by apply scroll_ignored_while_detached.
  - intros s0 Hv0. unfold scrollTo, viewerRef_current. cbv zeta. unfold_m.
    by rewrite Hv0.
Qed.

Lemma onScrollChangeCalls_emit e s :
  isOnScrollChange e = false →
  onScrollChangeCalls (set_effects (effects s ++ [e]) s) = onScrollChangeCalls s.
Proof.
  intros He. unfold onScrollChangeCalls. st_simpl.
  rewrite List.filter_app, length_app. simpl. rewrite He. simpl. lia.
Qed.

Lemma handle_before_scrollTo e n i s :
  isScrollTo e = false →
  scrollListener s = false → timers s = [] → onScrollChangeCalls s = n →
  scrolledToHighlightId s = i →
  let s' := stateOf (handle e s) in
  scrollListener s' = false ∧ timers s' = [] ∧ onScrollChangeCalls s' = n ∧
  scrolledToHighlightId s' = i.
Proof.
  intros He Hoff Htimers Hn Hi.
  assert (Hkeep : ∀ m : M unit,
            invariant (λ s', scrollListener s' = false ∧ timers s' = []
                             ∧ onScrollChangeCalls s' = n
                             ∧ scrolledToHighlightId s' = i) m →
            let s' := stateOf (m s) in
            scrollListener s' = false ∧ timers s' = []
            ∧ onScrollChangeCalls s' = n ∧ scrolledToHighlightId s' = i).
  { intros m Hm. by apply Hm. }
  destruct e as [sel| |target|code| | |h|k|t|t|b|vp sp image|hs|];
    try discriminate He; cbn [handle].
  5: { unfold_m. by rewrite Hoff. }
  5: { unfold_m. by rewrite Htimers. }
  all: apply Hkeep;
    inv_gen
      ltac:(intros ? (? & ? & ? & ?);
            first [ by rewrite onScrollChangeCalls_emit
                  | split_and!; done ])
      ltac:(apply invariant_renderHighlightLayers;
            unfold frameStable, renderFrame; intros ? ? -> ?; by st_simpl).
Qed.

(** X5.  The scroll listener is attached nowhere but in the timeout that
    [scrollTo] sets.  Starting with the listener detached and no timeout
    pending (as after mounting), and as long as [scrollTo] is not called,
    no event attaches it: scroll events are not handled, the caller's
    [onScrollChange] is never called and the scrolled-to id is not reset. *)
Theorem onScroll_needs_scrollTo (es : list Event) (s : St) :
  scrollListener s = false → timers s = [] →
  Forall (λ e, isScrollTo e = false) es →
  scrollListener (run es s) = false ∧
  timers (run es s) = [] ∧
  onScrollChangeCalls (run es s) = onScrollChangeCalls s ∧
  scrolledToHighlightId (run es s) = scrolledToHighlightId s.
Proof.
  intros Hoff Htimers Hes. revert s Hoff Htimers.
  induction Hes as [|e es He Hes IH]; intros s Hoff Htimers; simpl; [done|].
  destruct (handle_before_scrollTo e _ _ s He Hoff Htimers eq_refl eq_refl)
    as (Hoff' & Htimers' & Hcalls' & Hid').
  rewrite <- Hcalls', <- Hid'. by apply IH.
Qed.

(** *** From a selection to the caller *)

Lemma onSelectionChange_valid s selection r c :
  sel_isCollapsed selection = false →
  sel_ranges selection !! 0 = Some r →
  containerNode s = Some c →
  contains c (commonAncestorContainer r) = true →
  onSelectionChange (Some selection) s =
  Returned tt (set_afterSelectionPending true
                 (set_range (Some r) (set_isCollapsed false s))).
Proof.
  intros Hcol Hr Hc Hin.
  unfold onSelectionChange, debouncedAfterSelection. unfold_m.
  rewrite Hcol, Hc, bool_decide_eq_true_2, Hr, Hin
    by (destruct (sel_ranges selection); [done|simpl; lia]).
  done.
Qed.

(** X6.  Take a selection-change event with a non-collapsed selection
    whose range lies inside the container, and let that range yield at
    least one page and at least one client rectangle.  Followed by the
    debounced call, the event ends in exactly one call of
    [onSelectionFinished], for that range: whatever range or pending call
    an earlier selection left behind is overwritten.  The viewport position
    becomes the tip position and the callback's result the tip children.
    The debounced call is then spent: falling due again, it does nothing. *)
Theorem selection_reaches_caller
    (s : St) (selection : Selection) (r : Range) (c : Element) (pages : list Page) :
  sel_isCollapsed selection = false →
  sel_ranges selection !! 0 = Some r →
  containerNode s = Some c →
  contains c (commonAncestorContainer r) = true →
  getPagesFromRange r = Some pages → pages ≠ [] →
  getClientRects r pages ≠ [] →
  let rects := getClientRects r pages in
  let viewportPosition := mkViewportPosition (getBoundingRect rects) rects in
  let content := mkContent (Some (range_toString r)) None in
  let scaledPosition := viewportPositionToScaled viewportPosition (viewer s) in
  let s' := run [EvSelectionChange (Some selection); EvAfterSelectionDue] s in
  range s' = Some r ∧ isCollapsed s' = false ∧
  afterSelectionPending s' = false ∧
  effects s' =
    effects s ++ [CallOnSelectionFinished scaledPosition content
                    HideTipAndGhostHighlight
                    (TransformSelection content scaledPosition)] ∧
  tipPosition s' = Some viewportPosition ∧
  tipChildren s' =
    onSelectionFinished scaledPosition content HideTipAndGhostHighlight
      (TransformSelection content scaledPosition) ∧
  run [EvAfterSelectionDue] s' = s'.
Proof.
  intros Hcol Hr Hc Hin Hp Hne Hrects. cbv zeta.
  cbn [run handle]. rewrite (onSelectionChange_valid s selection r c) by done.
  cbn [stateOf]. unfold_m.
  rewrite (afterSelection_finished _ r pages) by done.
  st_simpl. split_and!; try done.
Qed.

(** X7.  A selection that collapses before the debounced call runs cancels
    it in effect: the collapse only records that the selection is collapsed
    (the range of the earlier selection is kept), and the debounced
    [afterSelection] then returns without calling [onSelectionFinished] and
    without touching the tip. *)
Theorem collapse_before_settle (s : St) (selection : Selection) :
  sel_isCollapsed selection = true →
  let s' := run [EvSelectionChange (Some selection); EvAfterSelectionDue] s in
  isCollapsed s' = true ∧ range s' = range s ∧
  afterSelectionPending s' = false ∧
  effects s' = effects s ∧
  tipPosition s' = tipPosition s ∧ tipChildren s' = tipChildren s ∧
  ghostHighlight s' = ghostHighlight s.
Proof.
  intros Hcol. cbv zeta. cbn [run handle].
  unfold onSelectionChange, afterSelection. unfold_m. rewrite Hcol. unfold_m.
  destruct (afterSelectionPending s) eqn:Hpending; do 2 unfold_m;
    [destruct (range s) eqn:Hrange|]; do 2 unfold_m;
    rewrite ?Hpending, ?Hrange; done.
Qed.

(** X8.  An area selection reaches the caller like a text selection: the
    viewport position becomes the tip position and [onSelectionFinished] is
    called once, with the image as content and the area's own commit
    continuation.  Running that continuation stores the ghost highlight
    with exactly that image and position, resets the mouse selection once,
    and leaves the tip in place. *)
Theorem area_selection_contract
    (viewportPosition : ViewportPosition) (scaledPosition : ScaledPosition)
    (image : string) (s : St) :
  let content := mkContent None (Some image) in
  let commit := TransformAreaSelection scaledPosition image in
  (∃ s', afterAreaSelection viewportPosition scaledPosition image s = Returned tt s' ∧
     effects s' =
       effects s ++ [CallOnSelectionFinished scaledPosition content
                       HideTipAndGhostHighlight commit] ∧
     tipPosition s' = Some viewportPosition ∧
     tipChildren s' =
       onSelectionFinished scaledPosition content HideTipAndGhostHighlight commit ∧
     ghostHighlight s' = ghostHighlight s) ∧
  (∀ s0, let s1 := stateOf (runContinuation commit s0) in
     ghostHighlight s1 = Some (mkGhostHighlight content scaledPosition) ∧
     effects s1 = effects s0 ++ [CallResetSelection] ∧
     tipPosition s1 = tipPosition s0 ∧ tipChildren s1 = tipChildren s0).
Proof.
  cbv zeta. split.
  - eexists. split; [reflexivity|]. by st_simpl.
  - intros s0. cbn [runContinuation]. unfold_m.
    by destruct (renderHighlightLayers_fields
                   (set_effects (effects s0 ++ [CallResetSelection])
                      (set_ghostHighlight
                         (Some (mkGhostHighlight (mkContent None (Some image))
                                  scaledPosition)) s0)))
      as (_ & -> & -> & -> & _ & _ & _ & -> & _).
Qed.

(** *** What the pages show *)

Lemma live_after_render s v p :
  viewer s = Some v → wfRoots s → 1 ≤ p ≤ numPages →
  is_Some (connectedRoot s p) ∨ is_Some (pageTextLayer v p) →
  let s' := stateOf (renderHighlightLayers s) in
  is_Some (connectedRoot s' p) ∨ is_Some (pageTextLayer v p).
Proof.
  intros Hv Hwf Hp Hlive s'.
  destruct (pageTextLayer v p) as [tl|] eqn:Htl; [by right|]. left.
  destruct Hlive as [[hr Hc]|[? ?]]; [|done].
  unfold s'. rewrite (renderHighlightLayers_eq v s Hv). st_simpl.
  destruct (pagesSteps_spec v (seq 1 numPages) (NoDup_seq _ _) s Hwf)
    as (_ & _ & _ & _ & Hpages).
  apply seq_pages in Hp. specialize (Hpages p Hp).
  unfold pageRendered in Hpages. rewrite Hc in Hpages.
  destruct Hpages as [Hreg _]. exists hr.
  apply connectedRoot_Some in Hc as [_ Hcon].
  unfold connectedRoot, isConnected in *. rewrite Hreg.
  rewrite (renderFrame_attached _ _ (pagesSteps_frame v _ s)). by rewrite Hcon.
Qed.

(** X9.  When the [highlights] prop changes, every page that has a live
    root or a text layer is rendered again from the new list: its root
    shows the layer built from the new highlights followed by the current
    ghost highlight. *)
Theorem highlights_change_rerenders
    (hs : list Highlight) (s : St) (v : PDFViewer) (p : nat) :
  viewer s = Some v → wfRoots s → 1 ≤ p ≤ numPages →
  is_Some (connectedRoot s p) ∨ is_Some (pageTextLayer v p) →
  let s' := stateOf (handle (EvHighlights hs) s) in
  highlights s' = hs ∧
  pageContent s' p =
    Some (mkLayerElement
            (groupHighlightsByPage
               ((Some ∘ inl <$> hs) ++ [inr <$> ghostHighlight s]))
            p (scrolledToHighlightId s) v).
Proof.
  intros Hv Hwf Hp Hlive. cbv zeta. cbn [handle]. unfold_m. split.
  - pose proof (renderHighlightLayers_frame (set_highlights hs s)) as Hf.
    unfold renderFrame in Hf. by rewrite Hf.
  - by rewrite (renderHighlightLayers_shows (set_highlights hs s) v p).
Qed.

(** X10.  After a successful [scrollTo], every page with a live root or a
    text layer shows its layer with the target highlight marked as scrolled
    to; after the next handled scroll it shows the layer with no highlight
    marked. *)
Theorem scrollTo_marks_pages
    (h : Highlight) (s : St) (v : PDFViewer) (pageView : PDFPageView) (p : nat) :
  let page := s_pageNumber (sp_boundingRect (h_position h)) in
  viewer s = Some v →
  getPageView v (Z.of_nat page - 1) = Some pageView →
  wfRoots s → 1 ≤ p ≤ numPages →
  is_Some (connectedRoot s p) ∨ is_Some (pageTextLayer v p) →
  let s' := stateOf (scrollTo h s) in
  (∃ el, pageContent s' p = Some el ∧
     le_scrolledToHighlightId el = Some (h_id h) ∧ le_pageNumber el = p) ∧
  (∃ el, pageContent (stateOf (onScroll s')) p = Some el ∧
     le_scrolledToHighlightId el = None ∧ le_pageNumber el = p).
Proof.
  intros page Hv Hpage Hwf Hp Hlive s'.
  set (s1 := set_scrolledToHighlightId (Some (h_id h))
               (set_effects
                  ((effects s ++ [CallRemoveScrollListener]) ++
                   [CallScrollPageIntoView page (scrollDest h pageView)])
                  (set_effects (effects s ++ [CallRemoveScrollListener])
                     (set_scrollListener false s)))).
  set (s2 := stateOf (renderHighlightLayers s1)).
  assert (Hs' : s' = set_effects (effects s2 ++ [CallSetTimeout AddScrollListener 100])
                       (set_timers (timers s2 ++ [(AddScrollListener, 100)]) s2)).
  { unfold s', scrollTo, setTimeout, viewerRef_current.
    cbv zeta. fold page. unfold_m. rewrite Hv. unfold_m. rewrite Hv.
    unfold_m. rewrite Hpage. unfold_m. rewrite Hv. unfold_m.
    fold (scrollDest h pageView). fold s1.
    assert (Hv1 : viewer s1 = Some v) by done.
    unfold s2. rewrite (renderHighlightLayers_eq v s1 Hv1). by unfold_m. }
  clearbody s'. subst s'.
  assert (Hwf1 : wfRoots s1) by done.
  assert (Hlive1 : is_Some (connectedRoot s1 p) ∨ is_Some (pageTextLayer v p))
    by done.
  assert (Hshow : pageContent s2 p = Some (highlightLayer v p s1))
    by by apply renderHighlightLayers_shows.
  assert (Hv2 : viewer s2 = Some v).
  { unfold s2. by rewrite (renderFrame_viewer _ _ (renderHighlightLayers_frame s1)). }
  set (s' := set_effects (effects s2 ++ [CallSetTimeout AddScrollListener 100])
               (set_timers (timers s2 ++ [(AddScrollListener, 100)]) s2)).
  split.
  - by exists (highlightLayer v p s1).
  - set (s3 := set_scrolledToHighlightId None
                 (set_effects (effects s' ++ [CallOnScrollChange]) s')).
    exists (highlightLayer v p s3). split; [|done].
    rewrite onScroll_state. fold s3.
    apply renderHighlightLayers_shows; [done| |done|].
    + by apply wfRoots_renderHighlightLayers.
    + by apply (live_after_render s1 v p).
Qed.

(** X16.  Dismissing takes the ghost highlight off the pages: after
    [hideTipAndGhostHighlight], every page with a live root or a text layer
    shows the layer built from the highlights alone, the ghost slot of the
    list given to [groupHighlightsByPage] being null. *)
Theorem dismiss_clears_pages (s : St) (v : PDFViewer) (p : nat) :
  viewer s = Some v → wfRoots s → 1 ≤ p ≤ numPages →
  is_Some (connectedRoot s p) ∨ is_Some (pageTextLayer v p) →
  pageContent (stateOf (hideTipAndGhostHighlight s)) p =
    Some (mkLayerElement
            (groupHighlightsByPage ((Some ∘ inl <$> highlights s) ++ [None]))
            p (scrolledToHighlightId s) v).
Proof.
  intros Hv Hwf Hp Hlive. rewrite hideTipAndGhostHighlight_state.
  by rewrite (renderHighlightLayers_shows _ v p).
Qed.

(** *** The tip stays until dismissed *)

Lemma handle_keeps_tip e s :
  dismisses e = false → is_Some (tipPosition s) →
  is_Some (tipPosition (stateOf (handle e s))).
Proof.
  intros He Htip.
  assert (Hkeep : ∀ m : M unit,
            invariant (λ s', is_Some (tipPosition s')) m →
            is_Some (tipPosition (stateOf (m s)))).
  { intros m Hm. by apply Hm. }
  assert (Hrender : invariant (λ s', is_Some (tipPosition s')) renderHighlightLayers).
  { apply invariant_renderHighlightLayers.
    unfold frameStable, renderFrame. intros ? ? -> ?. by st_simpl. }
  destruct e as [sel| |target|code| | |h|k|t|t|b|vp sp image|hs|];
    cbn [handle dismisses] in *.
  3: { unfold onMouseDown.
       destruct (negb (isHTMLElement target) || _); [done|discriminate He]. }
  7: { destruct k; [discriminate He|..]; apply Hkeep;
       inv_gen ltac:(intros [] ?; done) ltac:(exact Hrender). }
  all: apply Hkeep;
    inv_gen ltac:(intros [] ?; first [done|by eexists]) ltac:(exact Hrender).
Qed.

(** X11.  A tip that is showing is taken down by nothing but a dismissal:
    over any sequence of events none of which ends in
    [hideTipAndGhostHighlight] (the dismiss continuation or a pointer-down
    outside the tip container), the tip position stays set.  Scrolling,
    key presses (Escape included), new highlights and re-rendering never
    clear it. *)
Theorem tip_stays_until_dismissed (es : list Event) (s : St) :
  is_Some (tipPosition s) →
  Forall (λ e, dismisses e = false) es →
  is_Some (tipPosition (run es s)).
Proof.
  intros Htip Hes. revert s Htip.
  induction Hes as [|e es He Hes IH]; intros s Htip; simpl; [done|].
  by apply IH, handle_keeps_tip.
Qed.

End Traces.


(** *** Mounting, unmounting and the scale value *)

Section HostProofs.
Context `{lib : Lib} `{props : Props}.

(** X12.  When the container is missing at mount, the mount effect only
    creates a resize observer that observes nothing: it registers no
    listener, creates no viewer, does not mark the viewer ready and returns
    no cleanup.  The guard of [handleScaleValue] does not protect it in that
    situation: the debounced scale update armed by the scale effect throws
    when it falls due, and so does the rendering triggered by the
    highlights effect as soon as the document has a page. *)
Theorem mount_without_container (h : Host) (pdfScaleValue : string) :
  containerNode (component h) = None →
  viewer (component h) = None →
  let h1 := hostOf (hostHandle HostMount h) in
  (component h1 = component h ∧
   resizeObserver h1 = Some false ∧
   textlayerrenderedListener h1 = textlayerrenderedListener h ∧
   pagesinitListener h1 = pagesinitListener h ∧
   selectionchangeListener h1 = selectionchangeListener h ∧
   keydownListener h1 = keydownListener h ∧
   isViewerReady h1 = isViewerReady h ∧
   cleanupPending h1 = false ∧ hostCalls h1 = hostCalls h) ∧
  hostOf (hostHandle HostResize h1) = h1 ∧
  (∃ h2, hostHandle HostScaleValueDue
           (hostOf (hostHandle (HostPdfScaleValue pdfScaleValue) h1)) =
         HostThrown TypeError h2 ∧ currentScaleValue h2 = currentScaleValue h) ∧
  (1 ≤ numPages → highlightRoots (component h) !! 1 = None →
   returns (renderHighlightLayers (component h1)) = false).
Proof.
  intros Hc Hv. cbn [hostHandle hostOf]. unfold mountEffect. rewrite Hc.
  cbv zeta. split_and!; try done.
  - unfold pdfScaleValueEffect, debouncedScaleValue, handleScaleValue. cbn.
    destruct (scaleValuePending h); cbn; rewrite Hv; by eexists.
  - cbn [component]. intros Hn Hroots.
    destruct (returns (renderHighlightLayers (component h))) eqn:Hret; [|done].
    unfold renderHighlightLayers in Hret.
    rewrite forPages_no_viewer_returns in Hret by done.
    destruct (Hret 1) as [hr Hhr]; [by apply seq_pages; lia|].
    unfold connectedRoot in Hhr. by rewrite Hroots in Hhr.
Qed.

Lemma hostRun_app es1 es2 h :
  hostRun (es1 ++ es2) h = hostRun es2 (hostRun es1 h).
Proof. revert h. induction es1 as [|e es1 IH]; intros h; simpl; [done|apply IH]. Qed.




(** X14.  With a container, the mount effect registers the four listeners,
    observes the container, marks the viewer ready and keeps an existing
    viewer, creating one on the container only when there is none.  Its
    cleanup removes the four listeners, disconnects the observer and marks
    the viewer not ready, and nothing else: the viewer stays in its ref, and
    the scroll listener, pending timeouts and pending debounced calls are
    not cancelled.  Mounting again reuses that viewer. *)
Theorem mount_then_cleanup (h : Host) (c : Element) :
  containerNode (component h) = Some c →
  let h1 := mountEffect h in
  let h2 := cleanupEffect h1 in
  let v := default (mkPDFViewer c []) (viewer (component h)) in
  (component h1 = set_viewer (Some v) (component h) ∧
   textlayerrenderedListener h1 = true ∧ pagesinitListener h1 = true ∧
   selectionchangeListener h1 = true ∧ keydownListener h1 = true ∧
   resizeObserver h1 = Some true ∧ isViewerReady h1 = true ∧
   cleanupPending h1 = true ∧
   hostCalls h1 =
     hostCalls h ++ [LinkServiceSetDocument; LinkServiceSetViewer v;
                     ViewerSetDocument]) ∧
  (component h2 = component h1 ∧
   textlayerrenderedListener h2 = false ∧ pagesinitListener h2 = false ∧
   selectionchangeListener h2 = false ∧ keydownListener h2 = false ∧
   resizeObserver h2 = Some false ∧ isViewerReady h2 = false ∧
   scaleValuePending h2 = scaleValuePending h ∧
   currentScaleValue h2 = currentScaleValue h1 ∧
   hostCalls h2 = hostCalls h1) ∧
  (viewer (component (mountEffect h2)) = Some v ∧
   currentScaleValue (mountEffect h2) = currentScaleValue h1).
Proof.
  intros Hc. cbv zeta. unfold cleanupEffect, mountEffect. cbn. rewrite Hc.
  destruct (viewer (component h)) as [v|] eqn:Hv; cbn; rewrite ?Hc; cbn;
    split_and!; done.
Qed.

End HostProofs.

(** ** The theorems on the concrete document *)

Import Example.

(** C1.  The Escape key does not discard a finished selection: on the
    state with a pending ghost highlight and its tip, [handleKeyDown] with
    [Escape] leaves the ghost highlight, the tip position and the tip
    children in place (it only logs and renders the layers again, the call
    of [hideTipAndGhostHighlight] being commented out), whereas a
    pointer-down outside the tip container on the same state clears all
    three. *)
Theorem escape_keeps_pending_selection :
  let escaped := stateOf (handleKeyDown "Escape" withGhost) in
  let clicked := stateOf (onMouseDown 10 withGhost) in
  ghostHighlight withGhost = Some ghost ∧
  ghostHighlight escaped = Some ghost ∧
  tipPosition escaped = tipPosition withGhost ∧
  tipChildren escaped = Some "tip" ∧
  effects escaped = [ConsoleLog "Escape!"] ∧
  ghostHighlight clicked = None ∧
  tipPosition clicked = None ∧
  tipChildren clicked = None.
Proof.
  cbv zeta.
  destruct (handleKeyDown_fields "Escape" withGhost) as (_ & -> & -> & ->).
  destruct (renderHighlightLayers_fields
              (set_effects (effects withGhost ++ [ConsoleLog "Escape!"]) withGhost))
    as (_ & _ & _ & _ & _ & _ & _ & Heff & _).
  rewrite onMouseDown_discards by reflexivity.
  destruct (hideTipAndGhostHighlight_clears withGhost) as (-> & -> & ->).
  by split_and!.
Qed.


(** Every state reached from the mounted component has a well-formed root
    registry. *)
Lemma run_mounted_wfRoots es : wfRoots (run es mounted).
Proof. apply run_wfRoots. compute_done. Qed.

Lemma showTip_guarded_witness :
  is_Some (ghostHighlight withGhost) ∧
  showTip tipOverHighlight withGhost = Returned tt withGhost.
Proof.
  split; [by eexists|].
  apply showTip_guarded. right. left. by eexists.
Defined.

Lemma failure_modes_return_early_witness :
  FailureMode rendered (FindOrCreateHighlightLayer 3) ∧
  ∃ s', perform (FindOrCreateHighlightLayer 3) rendered = Returned None s' ∧
    highlightRoots s' = highlightRoots rendered ∧
    tipPosition s' = tipPosition rendered.
Proof.
  assert (Hmode : FailureMode rendered (FindOrCreateHighlightLayer 3)).
  { eapply MissingTextLayer; reflexivity. }
  split; [exact Hmode|].
  destruct (failure_modes_return_early _ _ Hmode)
    as (s' & Hrun & _ & _ & Hpos & _ & _ & Hroots & _).
  exists s'. split_and!; done.
Defined.

Lemma renderHighlightLayers_per_page_witness :
  ∃ s' root,
    renderHighlightLayers rendered = Returned tt s' ∧
    highlightRoots s' !! 2 = Some (mkHighlightRoot root 21) ∧
    rootRendered s' !! root = Some (highlightLayer pdfViewer 2 rendered).
Proof.
  destruct (renderHighlightLayers_per_page rendered pdfViewer 2)
    as (s' & Hrun & _ & Hdetached);
    [reflexivity|compute_done|compute_done|].
  destruct (Hdetached eq_refl) as (_ & Hnew & _).
  destruct (Hnew _ eq_refl) as (root & _ & Hreg & Hrend).
  exists s', root. split_and!; done.
Defined.

Lemma renderHighlightLayers_idempotent_witness :
  pageContent (stateOf (renderHighlightLayers
                          (stateOf (renderHighlightLayers rendered)))) 2 =
  pageContent (stateOf (renderHighlightLayers rendered)) 2.
Proof.
  apply (renderHighlightLayers_idempotent rendered); [compute_done|reflexivity].
Defined.

Lemma selection_finished_contract_witness :
  ∃ s', afterSelection selected = Returned tt s' ∧
    tipChildren s' = Some "tip" ∧
    length (effects s') = 1.
Proof.
  destruct (selection_finished_contract selected selectedRange [mkPage 10 1])
    as [(s' & Hrun & Heff & _ & Hchildren) _];
    [reflexivity|reflexivity|reflexivity|done|done|].
  exists s'. split_and!; [done|done|by rewrite Heff].
Defined.

Lemma selection_bounding_rect_witness :
  covers (getBoundingRect [mkLTWHP 10 20 30 5 1; mkLTWHP 4 25 50 5 1])
    (mkLTWHP 4 25 50 5 1).
Proof.
  destruct (selection_bounding_rect selected selectedRange [mkPage 10 1])
    as (Hcovers & _);
    [reflexivity|reflexivity|reflexivity|done|done|].
  apply Hcovers. right. left.
Defined.

Lemma scrolledToHighlightId_lifetime_witness :
  ∃ s', scrollTo highlight rendered = Returned tt s' ∧
    scrolledToHighlightId s' = Some "h1" ∧
    scrollListener s' = false ∧
    scrolledToHighlightId (run [EvScroll; EvTimeout; EvScroll] s') = None.
Proof.
  destruct (scrolledToHighlightId_lifetime rendered pdfViewer
              (mkPDFPageView (Some (mkTextLayerBuilder 10)) pageViewport)
              highlight)
    as (_ & s' & Hrun & Hid & Hoff & _ & _ & Hignored & Hafter);
    [reflexivity|reflexivity|].
  exists s'. split_and!; [done..|].
  change [EvScroll; EvTimeout; EvScroll]
    with (replicate 1 EvScroll ++ [EvTimeout] ++ [EvScroll]).
  rewrite !run_app, Hignored. by apply Hafter.
Defined.

(** ** The further properties on the concrete document *)

Lemma registry_invariants_witness :
  wfRoots (run [EvTextLayerRendered; EvScrollTo highlight] rendered) ∧
  rootsConsistent (run [EvTextLayerRendered; EvScrollTo highlight] rendered).
Proof.
  destruct (registry_invariants [EvTextLayerRendered; EvScrollTo highlight] rendered)
    as (Hwf & Hcons & _); [compute_done|compute_done|].
  by split.
Defined.

Lemma scrollTo_without_page_view_witness :
  scrollTo strayHighlight rendered =
  Thrown TypeError
    (set_effects [CallRemoveScrollListener] (set_scrollListener false rendered)).
Proof.
  destruct (scrollTo_without_page_view strayHighlight rendered pdfViewer)
    as (Hthrown & _); [reflexivity|reflexivity|].
  exact Hthrown.
Defined.

Lemma onScroll_needs_scrollTo_witness :
  onScrollChangeCalls
    (run [EvTextLayerRendered; EvScroll; EvSelectionChange None; EvTimeout;
          EvScroll] mounted) = 0.
Proof.
  destruct (onScroll_needs_scrollTo
              [EvTextLayerRendered; EvScroll; EvSelectionChange None; EvTimeout;
               EvScroll] mounted)
    as (_ & _ & Hcalls & _); [reflexivity|reflexivity|by repeat constructor|].
  exact Hcalls.
Defined.

Lemma selection_reaches_caller_witness :
  tipChildren (run [EvSelectionChange (Some textSelection); EvAfterSelectionDue]
                 mounted) = Some "tip".
Proof.
  destruct (selection_reaches_caller mounted textSelection selectedRange 2
              [mkPage 10 1])
    as (_ & _ & _ & _ & _ & Hchildren & _);
    [reflexivity|reflexivity|reflexivity|reflexivity|reflexivity|done|done|].
  exact Hchildren.
Defined.

Lemma collapse_before_settle_witness :
  effects (run [EvSelectionChange (Some caret); EvAfterSelectionDue]
             (set_afterSelectionPending true selected)) = [].
Proof.
  destruct (collapse_before_settle (set_afterSelectionPending true selected) caret)
    as (_ & _ & _ & Heffects & _); [reflexivity|].
  exact Heffects.
Defined.

Lemma highlights_change_rerenders_witness :
  highlights (stateOf (handle (EvHighlights []) rendered)) = [] ∧
  is_Some (pageContent (stateOf (handle (EvHighlights []) rendered)) 1).
Proof.
  destruct (highlights_change_rerenders [] rendered pdfViewer 1)
    as (Hhs & Hshown);
    [reflexivity|compute_done|compute_done|left; by eexists|].
  split; [exact Hhs|]. rewrite Hshown. by eexists.
Defined.

Lemma scrollTo_marks_pages_witness :
  ∃ el, pageContent (stateOf (scrollTo highlight rendered)) 2 = Some el ∧
    le_scrolledToHighlightId el = Some "h1".
Proof.
  destruct (scrollTo_marks_pages highlight rendered pdfViewer
              (mkPDFPageView (Some (mkTextLayerBuilder 10)) pageViewport) 2)
    as ((el & Hel & Hid & _) & _);
    [reflexivity|reflexivity|compute_done|compute_done|right; by eexists|].
  by exists el.
Defined.

Lemma tip_stays_until_dismissed_witness :
  is_Some (tipPosition (run [EvKeyDown "Escape"; EvScroll; EvPointerDown 50]
                          withGhost)).
Proof.
  apply tip_stays_until_dismissed; [by eexists|by repeat constructor].
Defined.

Lemma mount_without_container_witness :
  ∃ h, hostHandle HostScaleValueDue
         (hostRun [HostMount; HostPdfScaleValue "page-width"] hostWithoutContainer) =
       HostThrown TypeError h.
Proof.
  destruct (mount_without_container hostWithoutContainer "page-width")
    as (_ & _ & (h & Hthrown & _) & _); [reflexivity|reflexivity|].
  by exists h.
Defined.


Lemma mount_then_cleanup_witness :
  viewer (component (mountEffect (cleanupEffect (mountEffect hostBeforeMount)))) =
  Some (mkPDFViewer 2 []) ∧
  selectionchangeListener (cleanupEffect (mountEffect hostBeforeMount)) = false.
Proof.
  destruct (mount_then_cleanup hostBeforeMount 2)
    as (_ & (_ & _ & _ & Hoff & _) & (Hviewer & _)); [reflexivity|].
  split; [exact Hviewer|exact Hoff].
Defined.

Lemma dismiss_clears_pages_witness :
  le_highlightsByPage
    <$> pageContent (stateOf (hideTipAndGhostHighlight withGhost)) 1 =
  Some (groupHighlightsByPage [Some (inl highlight); None]).
Proof.
  rewrite (dismiss_clears_pages withGhost pdfViewer 1);
    [reflexivity|reflexivity|compute_done|compute_done|left; by eexists].
Defined.
